(** * cypress-parallel: test discovery and grouping

    A shallow embedding of the parser facade ([parsing.ts]), the config
    locator and glob helper ([cypressBaseConfigParser.ts]), the legacy
    adapter ([cypress9ConfigParser.ts]) and the modern adapters
    ([cypressConfigParser.ts]), followed by the properties the
    specification states about them. *)

From Stdlib Require Import String Ascii List Bool Arith ZArith QArith Qround Lia.
Import ListNotations.
Local Open Scope string_scope.
Local Open Scope list_scope.
Local Open Scope nat_scope.

(** ** JavaScript numbers

    [countRunners] is [Number(getInput("count-runners"))], an arbitrary
    JavaScript number.  Finite values are kept as exact rationals and
    quotients are exact.  For an integer count the quotients taken by
    [createTestGroups] are quotients of array lengths and indices (below
    2^32) by integers, for which the rounded double and the exact
    rational have the same [Math.ceil] and [Math.floor]; a fractional
    count such as 2.5 divides 5 exactly in both.  The sign of zero is
    not tracked: the only zero divisor [createTestGroups] can reach is
    the [+0] returned by [Math.ceil]. *)
Module JS.

Inductive number : Type :=
| NaN
| PosInfinity
| NegInfinity
| Num (q : Q).

Definition of_nat (n : nat) : number := Num (inject_Z (Z.of_nat n)).

Definition isNaN (x : number) : bool :=
  match x with NaN => true | _ => false end.

(** [x <= 0] *)
Definition le_zero (x : number) : bool :=
  match x with
  | NaN => false
  | PosInfinity => false
  | NegInfinity => true
  | Num q => Qle_bool q 0
  end.

Definition sign_nonneg (q : Q) : bool := Qle_bool 0 q.

(** [x / y] *)
Definition div (x y : number) : number :=
  match x, y with
  | NaN, _ | _, NaN => NaN
  | (PosInfinity | NegInfinity), (PosInfinity | NegInfinity) => NaN
  | PosInfinity, Num q => if sign_nonneg q then PosInfinity else NegInfinity
  | NegInfinity, Num q => if sign_nonneg q then NegInfinity else PosInfinity
  | Num _, (PosInfinity | NegInfinity) => Num 0
  | Num p, Num q =>
      if Qeq_bool q 0 then
        if Qeq_bool p 0 then NaN
        else if sign_nonneg p then PosInfinity else NegInfinity
      else Num (p / q)
  end.

Definition Math_ceil (x : number) : number :=
  match x with Num q => Num (inject_Z (Qceiling q)) | _ => x end.

Definition Math_floor (x : number) : number :=
  match x with Num q => Num (inject_Z (Qfloor q)) | _ => x end.

(** A property key that is an array index: a non-negative integer
    (the bound 2^32 - 1 on indices is left out, the indices taken here
    being at most the index of an array item).  Any other key ([NaN],
    [Infinity], a fraction) names an ordinary property of the array
    object. *)
Definition as_index (x : number) : option nat :=
  match x with
  | Num q =>
      if Qeq_bool q (inject_Z (Qfloor q)) && (0 <=? Qfloor q)%Z
      then Some (Z.to_nat (Qfloor q))
      else None
  | _ => None
  end.

(** Arrays that may have holes: [None] is an empty slot. *)
Definition array (A : Type) : Type := list (option A).

Definition dense {A : Type} (l : list A) : array A := map Some l.

(** [a[i]], with [None] for [undefined] *)
Definition get {A : Type} (a : array A) (i : nat) : option A :=
  match nth_error a i with
  | Some (Some v) => Some v
  | _ => None
  end.

(** [a[i] = v]: overwrites in range, and extends the array (leaving
    holes) when [i] is at or beyond the length. *)
Definition set {A : Type} (a : array A) (i : nat) (v : A) : array A :=
  if i <? length a
  then firstn i a ++ Some v :: skipn (S i) a
  else a ++ repeat None (i - length a) ++ [Some v].

(** [a.map(f)]: holes are skipped and stay holes. *)
Definition map {A B : Type} (f : A -> B) (a : array A) : array B :=
  List.map (option_map f) a.

(** [l.reduce(f, acc)] on a dense array; [f] receives the accumulator,
    the item and its index. *)
Fixpoint reduce_from {A B : Type} (f : B -> A -> nat -> B)
    (l : list A) (index : nat) (acc : B) : B :=
  match l with
  | [] => acc
  | item :: rest => reduce_from f rest (S index) (f acc item index)
  end.

Definition reduce {A B : Type} (f : B -> A -> nat -> B)
    (l : list A) (acc : B) : B :=
  reduce_from f l 0 acc.

(** [group.join(",")] *)
Definition join (sep : string) (l : list string) : string :=
  String.concat sep l.

End JS.

(** ** Test grouping ([parsing.ts], [createTestGroups]) *)

(** The callback given to [tests.reduce]. *)
Definition group_step (testCountByChunk : JS.number)
    (groups : JS.array (list string)) (item : string) (index : nat)
    : JS.array (list string) :=
  let chunkIndex := JS.Math_floor (JS.div (JS.of_nat index) testCountByChunk) in
  match JS.as_index chunkIndex with
  | None =>
      (* [groups[chunkIndex]] is a named property of the array object;
         the elements, which are all that [map] visits, are untouched *)
      groups
  | Some i =>
      let groups :=
        match JS.get groups i with
        | None => JS.set groups i []       (* start a new chunk *)
        | Some _ => groups
        end in
      match JS.get groups i with
      | Some group => JS.set groups i (group ++ [item])
      | None => groups
      end
  end.

Definition createTestGroups (groupCount : JS.number) (tests : list string)
    : JS.array string :=
  if JS.isNaN groupCount || JS.le_zero groupCount then JS.dense tests
  else
    let testCountByChunk :=
      JS.Math_ceil (JS.div (JS.of_nat (length tests)) groupCount) in
    JS.map (JS.join ",") (JS.reduce (group_step testCountByChunk) tests []).


(** ** Effects

    [parse] and the parsers raise exceptions and talk to the Actions
    runtime.  A computation yields either a value or a raised exception
    (kept as the text a template literal renders for it) together with
    the events it emitted, in order.  Only [error], [setFailed] and
    [setOutput] are recorded; [debug], [info] and [notice] are dropped. *)

Inductive event : Type :=
| LogError (message : string)
| SetFailed (message : string)
| SetOutput (name : string) (value : JS.array string).

Inductive outcome (A : Type) : Type :=
| Ok (a : A)
| Throw (e : string).
Arguments Ok {A} a.
Arguments Throw {A} e.

Definition M (A : Type) : Type := (outcome A * list event)%type.

Definition ret {A : Type} (a : A) : M A := (Ok a, []).

Definition throw {A : Type} (e : string) : M A := (Throw e, []).

Definition emit (ev : event) : M unit := (Ok tt, [ev]).

Definition lift {A : Type} (o : outcome A) : M A := (o, []).

Definition bind {A B : Type} (m : M A) (f : A -> M B) : M B :=
  match m with
  | (Ok a, evs) => let (r, evs') := f a in (r, evs ++ evs')
  | (Throw e, evs) => (Throw e, evs)
  end.

(** [try { m } catch (e) { handler e }] *)
Definition try_catch {A : Type} (m : M A) (handler : string -> M A) : M A :=
  match m with
  | (Throw e, evs) => let (r, evs') := handler e in (r, evs ++ evs')
  | (Ok a, evs) => (Ok a, evs)
  end.

Declare Scope action_scope.
Delimit Scope action_scope with action.
Notation "x <- m ;; k" := (bind m (fun x => k))
  (at level 61, m at next level, right associativity) : action_scope.
Notation "m ;;; k" := (bind m (fun _ => k))
  (at level 61, right associativity) : action_scope.
Local Open Scope action_scope.

Definition error (message : string) : M unit := emit (LogError message).
Definition setFailed (message : string) : M unit := emit (SetFailed message).
Definition setOutput (name : string) (value : JS.array string) : M unit :=
  emit (SetOutput name value).

(** [new Error(msg)] as a template literal renders it *)
Definition Error (msg : string) : string := "Error: " ++ msg.

(** ** The host: file system, path and glob libraries, module loading

    Everything outside the repository is a field of [Host].  A directory
    tree stands for what [fs.existsSync] and [fs.readdirSync] see. *)

#[warnings="-register-all"]
Inductive node : Type :=
| File                                      (* [entry.isFile()] *)
| Other                                     (* neither a file nor a directory *)
| Dir (entries : list (string * node))      (* a directory and its entries *)
| Unreadable (e : string).                  (* a directory [readdirSync] fails on *)

(** What a modern configuration module exports. *)
Inductive SpecPattern : Type :=
| Single (pattern : string)
| Many (patterns : list string).

Record RawSection : Type := {
  raw_specPattern : option SpecPattern;
  raw_excludeSpecPattern : option SpecPattern
}.

Record RawConfig : Type := {
  raw_e2e : option RawSection;
  raw_component : option RawSection
}.

Inductive RawModule : Type :=
| Plain (config : RawConfig)                (* [module.exports = config] *)
| WithDefault (config : RawConfig).         (* [{default: config}] *)

(** What [JSON.parse] gives for a [cypress.json]: every key optional. *)
Record RawCypress9 : Type := {
  raw_componentFolder : option string;
  raw_ignoreTestFiles : option SpecPattern;
  raw_integrationFolder : option string;
  raw_testFiles : option SpecPattern
}.

Record Host : Type := {
  process_cwd : string;
  path_join : string -> string -> string;
  path_resolve : string -> string;
  (* [minimatch(f, p, {dot: true, matchBase: true})] *)
  minimatch : string -> string -> bool;
  (* the node a path leads to, [None] when [existsSync] is false *)
  fs_node : string -> option node;
  readFileSync : string -> outcome string;
  JSON_parse : string -> outcome RawCypress9;
  require : string -> outcome RawModule;
  (* [mkdtempSync(path.join(tmpRoot, "cypress-parallel_"))] joined with
     the script file name *)
  mkdtemp_config : outcome string;
  writeFileSync : string -> string -> outcome unit;
  (* [ts.transpileModule]: diagnostics and output text *)
  ts_transpileModule : string -> list string * string
}.

(** [types.ts] *)
Record TestFiles : Type := {
  integrationTests : list string;
  componentTests : option (list string)
}.

(** [{integrationTests: [], componentTests: []}] *)
Definition emptyTestFiles : TestFiles :=
  {| integrationTests := []; componentTests := Some [] |}.

(** ** Glob helper and config locator ([cypressBaseConfigParser.ts]) *)

Module CypressBaseConfigParser.

(** [path.relative(root, path.join(dir, name))] for [dir] below [root],
    [rel] being [dir] relative to the root. *)
Definition entry_rel (rel name : string) : string :=
  if (rel =? "")%string then name else rel ++ "/" ++ name.

Fixpoint listFiles (rel : string) (dir : node) : outcome (list string) :=
  match dir with
  | Dir entries =>
      (fix each (entries : list (string * node)) : outcome (list string) :=
         match entries with
         | [] => Ok []
         | (name, entry) :: rest =>
             let entryPath := entry_rel rel name in
             match entry with
             | Dir _ | Unreadable _ =>
                 match listFiles entryPath entry with
                 | Ok sub =>
                     match each rest with
                     | Ok files => Ok (sub ++ files)
                     | Throw e => Throw e
                     end
                 | Throw e => Throw e
                 end
             | File =>
                 match each rest with
                 | Ok files => Ok (entryPath :: files)
                 | Throw e => Throw e
                 end
             | Other => each rest
             end
         end) entries
  | Unreadable e => Throw e
  | File | Other => Throw (Error "ENOTDIR: not a directory, scandir")
  end.

Section WithHost.
Variable host : Host.

Definition glob (root : string) (pattern : list string)
    (ignorePattern : list string) : M (list string) :=
  match fs_node host root with
  | None => ret []
  | Some dir =>
      files <- lift (listFiles "" dir) ;;
      let files :=
        filter (fun f => existsb (fun p => minimatch host f p) pattern) files in
      let files :=
        fold_left
          (fun files p => filter (fun f => minimatch host f ("!" ++ p)) files)
          ignorePattern files in
      ret files
  end.

Definition getWorkingDirectory (workingDirectory : string) : string :=
  if (workingDirectory =? "")%string then process_cwd host else workingDirectory.

Definition getConfigFile (VALID_CONFIG_FILE_NAMES : list string)
    (workingDirectory : string) : M (option string) :=
  let cwd := getWorkingDirectory workingDirectory in
  results <- glob cwd VALID_CONFIG_FILE_NAMES [] ;;
  if length results =? 0 then ret None
  else if 1 <? length results then
    error "Multiple Cypress config files found." ;;;
    ret None
  else ret (Some (path_join host workingDirectory (hd "" results))).

(** [!!configFilePath] *)
Definition truthy_path (p : option string) : bool :=
  match p with
  | Some s => negb (s =? "")%string
  | None => false
  end.

Definition hasConfigFile (VALID_CONFIG_FILE_NAMES : list string)
    (workingDirectory : string) : M bool :=
  configFilePath <- getConfigFile VALID_CONFIG_FILE_NAMES workingDirectory ;;
  ret (truthy_path configFilePath).

(** The search [parseTestOfType] hands to [glob]. *)
Record DiscoveryRule : Type := {
  rootFolder : string;
  includePatterns : list string;
  excludePatterns : list string
}.

Definition filePatterns_of (specPattern : SpecPattern) : list string :=
  match specPattern with
  | Many l => l
  | Single s => [s]
  end.

(** [None] is [undefined]: an absent or empty-string exclude pattern. *)
Definition ignoreFilePatterns_of (excludeSpecPattern : option SpecPattern)
    : option (list string) :=
  match excludeSpecPattern with
  | Some (Many l) => Some l
  | Some (Single s) => if (s =? "")%string then None else Some [s]
  | None => None
  end.

Definition discoveryRule (testFolder : string) (specPattern : SpecPattern)
    (excludeSpecPattern : option SpecPattern) : DiscoveryRule :=
  {| rootFolder := testFolder;
     includePatterns := filePatterns_of specPattern;
     excludePatterns :=
       match ignoreFilePatterns_of excludeSpecPattern with
       | Some l => l
       | None => []                    (* default of [glob]'s parameter *)
       end |}.

Definition parseTestOfType (workingDirectory : string) (testFolder : string)
    (specPattern : SpecPattern) (excludeSpecPattern : option SpecPattern)
    : M (list string) :=
  let rule := discoveryRule testFolder specPattern excludeSpecPattern in
  files <- glob (path_join host workingDirectory (rootFolder rule))
             (includePatterns rule) (excludePatterns rule) ;;
  ret (List.map (fun f => path_join host testFolder f) files).

End WithHost.

End CypressBaseConfigParser.

(** ** Legacy adapter ([cypress9ConfigParser.ts]) *)

Module Cypress9ConfigParser.
Import CypressBaseConfigParser.

Definition CONFIG_FILE_NAME : string := "cypress.json".
Definition VALID_CONFIG_FILE_NAMES : list string := [CONFIG_FILE_NAME].
Definition DEFAULT_INTEGRATION_FOLDER : string := "cypress/integration".
Definition DEFAULT_TEST_FILES : string := "**/*.*".

Record CypressConfig : Type := {
  componentFolder : option string;
  ignoreTestFiles : option SpecPattern;
  integrationFolder : string;
  testFiles : SpecPattern
}.

(** [{integrationFolder: DEFAULT, testFiles: DEFAULT, ...config}] *)
Definition merge (config : RawCypress9) : CypressConfig :=
  {| componentFolder := raw_componentFolder config;
     ignoreTestFiles := raw_ignoreTestFiles config;
     integrationFolder :=
       match raw_integrationFolder config with
       | Some folder => folder
       | None => DEFAULT_INTEGRATION_FOLDER
       end;
     testFiles :=
       match raw_testFiles config with
       | Some patterns => patterns
       | None => Single DEFAULT_TEST_FILES
       end |}.

Section WithHost.
Variable host : Host.

Definition loadConfig (workingDirectory : string) : M CypressConfig :=
  configFilePath <- getConfigFile host VALID_CONFIG_FILE_NAMES workingDirectory ;;
  config <-
    (if truthy_path configFilePath then
       match configFilePath with
       | Some p =>
           data <- lift (readFileSync host p) ;;
           lift (JSON_parse host data)
       | None => throw (Error "no supported config file found.")
       end
     else throw (Error "no supported config file found.")) ;;
  ret (merge config).

(** [if (config.componentFolder)] *)
Definition componentFolder_set (config : CypressConfig) : option string :=
  match componentFolder config with
  | Some folder => if (folder =? "")%string then None else Some folder
  | None => None
  end.

Definition parseTests (workingDirectory : string) : M TestFiles :=
  try_catch
    (config <- loadConfig workingDirectory ;;
     integrationTests <-
       parseTestOfType host workingDirectory (integrationFolder config)
         (testFiles config) (ignoreTestFiles config) ;;
     componentTests <-
       match componentFolder_set config with
       | Some folder =>
           tests <- parseTestOfType host workingDirectory folder
                      (testFiles config) (ignoreTestFiles config) ;;
           ret (Some tests)
       | None => ret None
       end ;;
     ret {| integrationTests := integrationTests;
            componentTests := componentTests |})
    (fun e =>
       error ("Failed to parse cypress tests: " ++ e) ;;;
       ret emptyTestFiles).

End WithHost.

End Cypress9ConfigParser.

(** ** Modern adapters ([cypressConfigParser.ts]) *)

Module CypressConfigParser.
Import CypressBaseConfigParser.

Record Section_ : Type := {
  specPattern : list string;
  excludeSpecPattern : list string
}.

Record CypressConfig : Type := {
  e2e : Section_;
  component : Section_
}.

Definition DEFAULT_EXCLUDE_SPEC_PATTERNS : list string := ["**/node_modules/**"].

Definition unwrap (rawConfig : RawModule) : RawConfig :=
  match rawConfig with
  | WithDefault config => config       (* ["default" in rawConfig] *)
  | Plain config => config
  end.

Definition e2eSpecPattern_of (config : RawConfig) : list string :=
  match raw_e2e config with
  | Some e2e =>
      match raw_specPattern e2e with
      | Some (Single s) => [s]
      | Some (Many l) => l
      | None => ["cypress/e2e/**/*.cy.{js,jsx,ts,tsx}"]
      end
  | None => ["cypress/e2e/**/*.cy.{js,jsx,ts,tsx}"]
  end.

Definition e2eExcludeSpecPattern_of (config : RawConfig) : list string :=
  match raw_e2e config with
  | Some e2e =>
      match raw_excludeSpecPattern e2e with
      | Some (Single s) => DEFAULT_EXCLUDE_SPEC_PATTERNS ++ [s]
      | Some (Many l) => DEFAULT_EXCLUDE_SPEC_PATTERNS ++ l
      | None => DEFAULT_EXCLUDE_SPEC_PATTERNS ++ ["*.hot-update.js"]
      end
  | None => DEFAULT_EXCLUDE_SPEC_PATTERNS ++ ["*.hot-update.js"]
  end.

Definition componentSpecPattern_of (config : RawConfig) : list string :=
  match raw_component config with
  | Some component =>
      match raw_specPattern component with
      | Some (Single s) => [s]
      | Some (Many l) => l
      | None => ["**/*.cy.{js,jsx,ts,tsx}"]
      end
  | None => ["**/*.cy.{js,jsx,ts,tsx}"]
  end.

Definition componentExcludeSpecPattern_of (config : RawConfig)
    (e2eSpecPattern : list string) : list string :=
  let default :=
    DEFAULT_EXCLUDE_SPEC_PATTERNS ++ e2eSpecPattern
      ++ ["/snapshots/*"; "/image_snapshots/*"] in
  match raw_component config with
  | Some component =>
      match raw_excludeSpecPattern component with
      | Some (Single s) =>
          DEFAULT_EXCLUDE_SPEC_PATTERNS ++ e2eSpecPattern ++ [s]
      | Some (Many l) =>
          DEFAULT_EXCLUDE_SPEC_PATTERNS ++ e2eSpecPattern ++ l
      | None => default
      end
  | None => default
  end.

Section WithHost.
Variable host : Host.

Definition processConfig (configFilePath : option string) : M CypressConfig :=
  match configFilePath with
  | None => throw (Error "no supported config file found.")
  | Some p =>
      rawConfig <- lift (require host (path_resolve host p)) ;;
      let config := unwrap rawConfig in
      let e2eSpecPattern := e2eSpecPattern_of config in
      let e2eExcludeSpecPattern := e2eExcludeSpecPattern_of config in
      let componentSpecPattern := componentSpecPattern_of config in
      let componentExcludeSpecPattern :=
        componentExcludeSpecPattern_of config e2eSpecPattern in
      ret {| e2e := {| specPattern := e2eSpecPattern;
                       excludeSpecPattern := e2eExcludeSpecPattern |};
             component := {| specPattern := componentSpecPattern;
                             excludeSpecPattern := componentExcludeSpecPattern |} |}
  end.

Definition CONFIG_FILE_NAME_JS : string := "cypress.config.js".
Definition CONFIG_FILE_NAME_MJS : string := "cypress.config.mjs".
Definition CONFIG_FILE_NAME_CJS : string := "cypress.config.cjs".
Definition CONFIG_FILE_NAME_TS : string := "cypress.config.ts".

Definition JS_VALID_CONFIG_FILE_NAMES : list string :=
  [CONFIG_FILE_NAME_JS; CONFIG_FILE_NAME_MJS; CONFIG_FILE_NAME_CJS].
Definition TS_VALID_CONFIG_FILE_NAMES : list string := [CONFIG_FILE_NAME_TS].

Definition quote : string := String (ascii_of_nat 34) EmptyString.

Definition transpileTypescriptConfig (configFilePath : string) : M string :=
  jsConfigPath <- lift (mkdtemp_config host) ;;
  tsConfigFileText <- lift (readFileSync host configFilePath) ;;
  let (diagnostics, outputText) := ts_transpileModule host tsConfigFileText in
  if 0 <? length diagnostics then
    throw (Error ("Failed to transpile Cypress typescript config at " ++ quote
                  ++ path_join host (process_cwd host) configFilePath ++ quote))
  else
    lift (writeFileSync host jsConfigPath outputText) ;;;
    ret jsConfigPath.

Definition loadConfigJS (workingDirectory : string) : M CypressConfig :=
  configFilePath <- getConfigFile host JS_VALID_CONFIG_FILE_NAMES workingDirectory ;;
  if truthy_path configFilePath then processConfig configFilePath
  else throw (Error "no supported config file found.").

Definition loadConfigTS (workingDirectory : string) : M CypressConfig :=
  configFilePath <- getConfigFile host TS_VALID_CONFIG_FILE_NAMES workingDirectory ;;
  if truthy_path configFilePath then
    match configFilePath with
    | Some p =>
        jsConfigFilePath <- transpileTypescriptConfig p ;;
        processConfig (Some jsConfigFilePath)
    | None => throw (Error "no supported config file found.")
    end
  else throw (Error "no supported config file found.").

Definition parseTests (loadConfig : string -> M CypressConfig)
    (workingDirectory : string) : M TestFiles :=
  try_catch
    (config <- loadConfig workingDirectory ;;
     integrationTests <-
       parseTestOfType host workingDirectory ""
         (Many (specPattern (e2e config)))
         (Some (Many (excludeSpecPattern (e2e config)))) ;;
     componentTests <-
       parseTestOfType host workingDirectory ""
         (Many (specPattern (component config)))
         (Some (Many (excludeSpecPattern (component config)))) ;;
     ret {| integrationTests := integrationTests;
            componentTests := Some componentTests |})
    (fun e =>
       error ("Failed to parse cypress tests: " ++ e) ;;;
       ret emptyTestFiles).

End WithHost.

End CypressConfigParser.

(** ** Parser facade ([parsing.ts]) *)

Import CypressBaseConfigParser.

Record Config : Type := {
  workingDirectory : string;
  countRunners : JS.number
}.

(** The three parser classes; an instance holds the resolved working
    directory its constructor computes. *)
Inductive ParserClass : Type :=
| CypressTSConfigParser
| CypressJSConfigParser
| Cypress9ConfigParser_.

Definition VALID_CONFIG_FILE_NAMES (c : ParserClass) : list string :=
  match c with
  | CypressTSConfigParser => CypressConfigParser.TS_VALID_CONFIG_FILE_NAMES
  | CypressJSConfigParser => CypressConfigParser.JS_VALID_CONFIG_FILE_NAMES
  | Cypress9ConfigParser_ => Cypress9ConfigParser.VALID_CONFIG_FILE_NAMES
  end.

Section WithHost.
Variable host : Host.

Definition parserFactory (config : Config) : M (option ParserClass) :=
  ts <- hasConfigFile host (VALID_CONFIG_FILE_NAMES CypressTSConfigParser)
          (workingDirectory config) ;;
  if ts then ret (Some CypressTSConfigParser)
  else
    js <- hasConfigFile host (VALID_CONFIG_FILE_NAMES CypressJSConfigParser)
            (workingDirectory config) ;;
    if js then ret (Some CypressJSConfigParser)
    else
      v9 <- hasConfigFile host (VALID_CONFIG_FILE_NAMES Cypress9ConfigParser_)
              (workingDirectory config) ;;
      if v9 then ret (Some Cypress9ConfigParser_)
      else ret None.

(** [parser.parseTests()] on [new C(config)] *)
Definition parseTests (c : ParserClass) (config : Config) : M TestFiles :=
  let this_workingDirectory := getWorkingDirectory host (workingDirectory config) in
  match c with
  | CypressTSConfigParser =>
      CypressConfigParser.parseTests host (CypressConfigParser.loadConfigTS host)
        this_workingDirectory
  | CypressJSConfigParser =>
      CypressConfigParser.parseTests host (CypressConfigParser.loadConfigJS host)
        this_workingDirectory
  | Cypress9ConfigParser_ =>
      Cypress9ConfigParser.parseTests host this_workingDirectory
  end.

(** [integrationTests.length === 0 &&
     (!componentTests || componentTests?.length === 0)] *)
Definition noTests (tests : TestFiles) : bool :=
  (length (integrationTests tests) =? 0)
  && match componentTests tests with
     | None => true
     | Some componentTests => length componentTests =? 0
     end.

Definition parse_body (config : Config) : M unit :=
  parser <- parserFactory config ;;
  match parser with
  | None => setFailed "No supported Cypress config file found."
  | Some parser =>
      tests <- parseTests parser config ;;
      if noTests tests then setFailed "No tests found"
      else
        let integrationTestGroups :=
          createTestGroups (countRunners config) (integrationTests tests) in
        setOutput "integration-tests" integrationTestGroups ;;;
        match componentTests tests with
        | Some componentTests =>
            let componentTestGroups :=
              createTestGroups (countRunners config) componentTests in
            setOutput "component-tests" componentTestGroups
        | None => ret tt
        end
  end.

(** [parse()]: the inputs are [getInput("working-directory")] and
    [Number(getInput("count-runners"))]. *)
Definition parse (config : Config) : M unit :=
  try_catch (parse_body config)
    (fun e => setFailed ("Action failed with error: " ++ e)).

End WithHost.

(** What a run leaves behind. *)
Definition failures (evs : list event) : list string :=
  flat_map (fun ev => match ev with SetFailed m => [m] | _ => [] end) evs.

Definition outputs (evs : list event) : list (string * JS.array string) :=
  flat_map (fun ev => match ev with SetOutput n v => [(n, v)] | _ => [] end) evs.

Definition output_names (evs : list event) : list string :=
  List.map fst (outputs evs).

(** ** The specification's vocabulary *)

(** [ceil(n / m)] on naturals *)
Definition ceil_div (n m : nat) : nat := (n + m - 1) / m.

(** The [i]-th contiguous chunk of size [chunkSize]. *)
Definition chunk_at (chunkSize : nat) (paths : list string) (i : nat)
    : list string :=
  firstn chunkSize (skipn (i * chunkSize) paths).

(** The partition of [paths] into [ceil(len / chunkSize)] contiguous
    chunks of [chunkSize], in order. *)
Definition chunks (chunkSize : nat) (paths : list string) : list (list string) :=
  List.map (chunk_at chunkSize paths) (seq 0 (ceil_div (length paths) chunkSize)).

Definition is_positive_integer (x : JS.number) : bool :=
  match x with
  | JS.Num q => Qeq_bool q (inject_Z (Qfloor q)) && negb (Qle_bool q 0)
  | _ => false
  end.

(** Adapter precedence: typed script, plain script, legacy JSON. *)
Definition precedence : list ParserClass :=
  [CypressTSConfigParser; CypressJSConfigParser; Cypress9ConfigParser_].

(** [selectAdapter]: the first class, in the given order, whose config
    file the locator finds. *)
Fixpoint selectAdapter (host : Host) (workingDirectory : string)
    (classes : list ParserClass) : M (option ParserClass) :=
  match classes with
  | [] => ret None
  | c :: rest =>
      present <- hasConfigFile host (VALID_CONFIG_FILE_NAMES c) workingDirectory ;;
      if present then ret (Some c)
      else selectAdapter host workingDirectory rest
  end.

(** The rules each adapter hands to [parseTestOfType]. *)
Definition legacy_rules (config : Cypress9ConfigParser.CypressConfig)
    : list DiscoveryRule :=
  discoveryRule (Cypress9ConfigParser.integrationFolder config)
    (Cypress9ConfigParser.testFiles config)
    (Cypress9ConfigParser.ignoreTestFiles config)
  :: match Cypress9ConfigParser.componentFolder_set config with
     | Some folder =>
         [discoveryRule folder (Cypress9ConfigParser.testFiles config)
            (Cypress9ConfigParser.ignoreTestFiles config)]
     | None => []
     end.

Definition modern_rule (section : CypressConfigParser.Section_) : DiscoveryRule :=
  discoveryRule ""
    (Many (CypressConfigParser.specPattern section))
    (Some (Many (CypressConfigParser.excludeSpecPattern section))).

Definition section_specPattern (s : option RawSection) : option SpecPattern :=
  match s with
  | Some section => raw_specPattern section
  | None => None
  end.

Definition section_excludeSpecPattern (s : option RawSection)
    : option SpecPattern :=
  match s with
  | Some section => raw_excludeSpecPattern section
  | None => None
  end.

(** [c]'s [loadConfig] raises [e] after emitting [evs]. *)
Definition loadConfig_raises (host : Host) (c : ParserClass)
    (this_workingDirectory : string) (e : string) (evs : list event) : Prop :=
  match c with
  | CypressTSConfigParser =>
      CypressConfigParser.loadConfigTS host this_workingDirectory = (Throw e, evs)
  | CypressJSConfigParser =>
      CypressConfigParser.loadConfigJS host this_workingDirectory = (Throw e, evs)
  | Cypress9ConfigParser_ =>
      Cypress9ConfigParser.loadConfig host this_workingDirectory = (Throw e, evs)
  end.

(** Both categories came back without a file. *)
Definition zero_files (tests : TestFiles) : Prop :=
  integrationTests tests = []
  /\ (componentTests tests = None \/ componentTests tests = Some []).

(** A computation that talks to the runtime through [error] only. *)
Definition is_log (ev : event) : Prop :=
  match ev with
  | LogError _ => True
  | _ => False
  end.

Definition silent {A : Type} (m : M A) : Prop := Forall is_log (snd m).

(** What [parse] emits once the tests are known. *)
Definition report (config : Config) (tests : TestFiles) : list event :=
  if noTests tests then [SetFailed "No tests found"]
  else
    SetOutput "integration-tests"
      (createTestGroups (countRunners config) (integrationTests tests))
    :: match componentTests tests with
       | Some componentTests =>
           [SetOutput "component-tests"
              (createTestGroups (countRunners config) componentTests)]
       | None => []
       end.

(** ** Sample hosts *)

Module Sample.

Definition join (a b : string) : string :=
  if (a =? "")%string then (if (b =? "")%string then "." else b)
  else if (b =? "")%string then a
  else a ++ "/" ++ b.

Fixpoint basename_from (acc : string) (s : string) : string :=
  match s with
  | EmptyString => acc
  | String c rest =>
      if (c =? "/")%char then basename_from rest rest
      else basename_from acc rest
  end.

Definition basename (s : string) : string := basename_from s s.

(** A small matcher: a leading [!] negates, the catch-all matches
    everything, [*.ts] matches by suffix, and any other pattern is
    compared with the base name. *)
Fixpoint matches (f p : string) : bool :=
  match p with
  | String "!" q => negb (matches f q)
  | _ =>
      if (p =? "**/*.*")%string then true
      else (basename f =? p)%string
  end.

Definition host (tree : string -> option node) (json : outcome RawCypress9)
    (module : outcome RawModule) (diagnostics : list string) : Host :=
  {| process_cwd := "/repo";
     path_join := join;
     path_resolve := fun p => p;
     minimatch := matches;
     fs_node := tree;
     readFileSync := fun _ => Ok "text";
     JSON_parse := fun _ => json;
     require := fun _ => module;
     mkdtemp_config := Ok "/tmp/cypress-parallel_1/cypress.config.js";
     writeFileSync := fun _ _ => Ok tt;
     ts_transpileModule := fun _ => (diagnostics, "js") |}.

Definition no_json : outcome RawCypress9 := Throw "SyntaxError: Unexpected token".
Definition no_module : outcome RawModule := Throw "Error: Cannot find module".

Definition empty_raw9 : RawCypress9 :=
  {| raw_componentFolder := None; raw_ignoreTestFiles := None;
     raw_integrationFolder := None; raw_testFiles := None |}.

Definition specs : list (string * node) :=
  [("t1.ts", File); ("t2.ts", File); ("t3.ts", File); ("t4.ts", File);
   ("t5.ts", File)].

(** A repository with a [cypress.json] and five specs in the default
    integration folder. *)
Definition legacy_tree (root : string) : option node :=
  if (root =? "/repo")%string then
    Some (Dir [("cypress.json", File);
               ("cypress", Dir [("integration", Dir specs)])])
  else if (root =? "/repo/cypress/integration")%string then Some (Dir specs)
  else None.

(** A repository with a [cypress.config.js] and two specs. *)
Definition modern_tree (root : string) : option node :=
  if (root =? "/repo")%string then
    Some (Dir [("cypress.config.js", File);
               ("a.cy.ts", File); ("b.cy.ts", File)])
  else None.

(** A repository with a [cypress.config.ts] only. *)
Definition typed_tree (root : string) : option node :=
  if (root =? "/repo")%string then Some (Dir [("cypress.config.ts", File)])
  else None.

(** A repository with test files but no config file. *)
Definition bare_tree (root : string) : option node :=
  if (root =? "/repo")%string then
    Some (Dir [("cypress", Dir [("e2e", Dir specs)])])
  else None.

(** Two legacy config files below the root. *)
Definition ambiguous_tree (root : string) : option node :=
  if (root =? "/repo")%string then
    Some (Dir [("cypress.json", File);
               ("packages", Dir [("cypress.json", File)])])
  else None.

Definition legacy_host : Host := host legacy_tree (Ok empty_raw9) no_module [].

Definition modern_host : Host :=
  host modern_tree no_json
    (Ok (Plain {| raw_e2e := Some {| raw_specPattern := Some (Single "a.cy.ts");
                                     raw_excludeSpecPattern := None |};
                  raw_component :=
                    Some {| raw_specPattern := Some (Many ["a.cy.ts"; "b.cy.ts"]);
                            raw_excludeSpecPattern := None |} |}))
    [].

Definition bare_host : Host := host bare_tree no_json no_module [].

Definition ambiguous_host : Host := host ambiguous_tree (Ok empty_raw9) no_module [].

(** A [cypress.json] that does not parse. *)
Definition malformed_host : Host := host legacy_tree no_json no_module [].

(** A [cypress.config.ts] the transpiler reports diagnostics for. *)
Definition broken_ts_host : Host :=
  host typed_tree no_json no_module ["';' expected."].

(** A [cypress.json] with [testFiles: []]. *)
Definition empty_patterns_host : Host :=
  host legacy_tree
    (Ok {| raw_componentFolder := None; raw_ignoreTestFiles := None;
           raw_integrationFolder := None; raw_testFiles := Some (Many []) |})
    no_module [].

Definition config (count : JS.number) : Config :=
  {| workingDirectory := ""; countRunners := count |}.

End Sample.

(** [Math.ceil(tests.length / groupCount)] for a finite positive count *)
Definition chunk_size (len : nat) (count : Q) : nat :=
  Z.to_nat (Qceiling (inject_Z (Z.of_nat len) / count)).

(** The test [glob] applies to a listed file: some include pattern
    matches it and the negation of every ignore pattern accepts it. *)
Definition selected (host : Host) (pattern ignorePattern : list string)
    (f : string) : bool :=
  existsb (fun p => minimatch host f p) pattern
  && forallb (fun p => minimatch host f ("!" ++ p)) ignorePattern.

(** ** Directory trees *)

(** The tree without its entries that are neither files nor directories. *)
Fixpoint prune (n : node) : node :=
  match n with
  | Dir entries =>
      Dir ((fix each (entries : list (string * node)) : list (string * node) :=
              match entries with
              | [] => []
              | (name, entry) :: rest =>
                  match entry with
                  | Other => each rest
                  | _ => (name, prune entry) :: each rest
                  end
              end) entries)
  | _ => n
  end.

(** Every directory below (and including) a directory node can be read. *)
Fixpoint readable (n : node) : bool :=
  match n with
  | Dir entries =>
      (fix each (entries : list (string * node)) : bool :=
         match entries with
         | [] => true
         | (_, entry) :: rest =>
             match entry with
             | Dir _ | Unreadable _ => readable entry && each rest
             | _ => each rest
             end
         end) entries
  | _ => false
  end.

(** The number of regular files below a directory node. *)
Fixpoint count_files (n : node) : nat :=
  match n with
  | Dir entries =>
      (fix each (entries : list (string * node)) : nat :=
         match entries with
         | [] => 0
         | (_, entry) :: rest =>
             match entry with
             | File => S (each rest)
             | Dir _ => count_files entry + each rest
             | _ => each rest
             end
         end) entries
  | _ => 0
  end.

(** ** The first parser ([src/parsing.ts]), built on [@actions/glob]

    [createGlobber(patterns, {followSymbolicLinks}).glob()] is the
    function [globber]; [createGlobber(patterns)] follows symbolic links.
    [parseTests], [parseTestOfType] and [createGlobPattern] are the same
    in the later versions that change the working directory and add
    [count-runners]. *)

Module ParsingGlob.

Definition CYPRESS_CONFIG_FILE_NAME : string := "cypress.json".
Definition DEFAULT_INTEGRATION_FOLDER : string := "cypress/integration".
Definition DEFAULT_TEST_FILES : string := "**/*.*".

Record Config : Type := {
  workingDirectory : string;
  followSymbolicLinks : bool
}.

Definition newline : string := String (ascii_of_nat 10) EmptyString.

Section WithHost.
Variable host : Host.
Variable globber : string -> bool -> outcome (list string).

Definition loadCypressConfig (configFilePath : string)
    : M (option Cypress9ConfigParser.CypressConfig) :=
  try_catch
    (data <- lift (readFileSync host configFilePath) ;;
     config <- lift (JSON_parse host data) ;;
     (* the same defaults and spread as the legacy adapter *)
     ret (Some (Cypress9ConfigParser.merge config)))
    (fun e =>
       error ("Failed to load Cypress config: " ++ e) ;;;
       ret None).

Definition findCypressConfigFile : M (option string) :=
  results <- lift (globber ("**/" ++ CYPRESS_CONFIG_FILE_NAME) true) ;;
  (* [if (!results)]: an array is never falsy *)
  if 1 <? length results then
    error "Multiple Cypress config file found." ;;;
    ret None
  else ret (hd_error results).        (* [results[0]], [undefined] when empty *)

Definition createGlobPattern (testFolder : string) (testFiles : SpecPattern)
    (ignoreTestFiles : option SpecPattern) : string :=
  let filePatterns :=
    match testFiles with
    | Many l => l
    | Single s => [s]
    end in
  let patterns := List.map (fun p => path_join host testFolder p) filePatterns in
  let negated (ignoreFilePatterns : list string) :=
    patterns
    ++ List.map (fun p => ("!" ++ path_join host testFolder p)%string)
         ignoreFilePatterns in
  let patterns :=
    match ignoreTestFiles with
    | Some (Many l) => negated l
    | Some (Single s) => if (s =? "")%string then patterns else negated [s]
    | None => patterns
    end in
  String.concat newline patterns.

Definition parseTestOfType (config : Config) (testFolder : string)
    (testFiles : SpecPattern) (ignoreTestFiles : option SpecPattern)
    : M (list string) :=
  let globPattern := createGlobPattern testFolder testFiles ignoreTestFiles in
  lift (globber globPattern (followSymbolicLinks config)).

Definition parseTests (config : Config)
    (cypressConfig : Cypress9ConfigParser.CypressConfig) : M TestFiles :=
  integrationTests <-
    parseTestOfType config (Cypress9ConfigParser.integrationFolder cypressConfig)
      (Cypress9ConfigParser.testFiles cypressConfig)
      (Cypress9ConfigParser.ignoreTestFiles cypressConfig) ;;
  componentTests <-
    match Cypress9ConfigParser.componentFolder_set cypressConfig with
    | Some folder =>
        tests <- parseTestOfType config folder
                   (Cypress9ConfigParser.testFiles cypressConfig)
                   (Cypress9ConfigParser.ignoreTestFiles cypressConfig) ;;
        ret (Some tests)
    | None => ret None
    end ;;
  ret {| integrationTests := integrationTests;
         componentTests := componentTests |}.

Definition parse_body (config : Config) : M unit :=
  cypressConfigFilePath <-
    (if (workingDirectory config =? "")%string then findCypressConfigFile
     else ret (Some (path_join host (workingDirectory config)
                       CYPRESS_CONFIG_FILE_NAME))) ;;
  if truthy_path cypressConfigFilePath then
    match cypressConfigFilePath with
    | Some path =>
        cypressConfig <- loadCypressConfig path ;;
        match cypressConfig with
        | None => setFailed "Could not load Cypress config."
        | Some cypressConfig =>
            tests <- parseTests config cypressConfig ;;
            if noTests tests then setFailed "No tests found"
            else
              setOutput "integration-tests" (JS.dense (integrationTests tests)) ;;;
              match componentTests tests with
              | Some componentTests =>
                  setOutput "component-tests" (JS.dense componentTests)
              | None => ret tt
              end
        end
    | None => setFailed "Cypress config file could not be found."
    end
  else setFailed "Cypress config file could not be found.".

(** [parse()], for the inputs [working-directory] and
    [follow-symbolic-links] already read. *)
Definition parse (config : Config) : M unit :=
  try_catch (parse_body config)
    (fun e => setFailed ("Action failed with error: " ++ e)).

End WithHost.

End ParsingGlob.

(** What a run may report as its failure. *)
Definition action_failed (message : string) : Prop :=
  exists e : string, message = ("Action failed with error: " ++ e)%string.

(** A run either fails once and sets nothing, or sets [integration-tests]
    and then possibly [component-tests]. *)
Definition fails_or_reports (messages : list string) (evs : list event) : Prop :=
  (exists message,
     failures evs = [message]
     /\ (In message messages \/ action_failed message)
     /\ outputs evs = [])
  \/ (failures evs = []
      /\ exists integration,
           outputs evs = [("integration-tests", integration)]
           \/ exists component,
                outputs evs = [("integration-tests", integration);
                               ("component-tests", component)]).

(** ** More sample hosts *)

Module Fixture.

Definition raw_with_component (folder : string) : RawCypress9 :=
  {| raw_componentFolder := Some folder;
     raw_ignoreTestFiles := None;
     raw_integrationFolder := None;
     raw_testFiles := None |}.

(** A [cypress.json] with [componentFolder: "src"] and one spec there. *)
Definition component_tree (root : string) : option node :=
  if (root =? "/repo")%string then Some (Dir [("cypress.json", File)])
  else if (root =? "/repo/src")%string then Some (Dir [("a.spec.ts", File)])
  else None.

Definition component_host : Host :=
  Sample.host component_tree (Ok (raw_with_component "src")) Sample.no_module [].

(** A [cypress.json] whose [componentFolder] is the default integration
    folder. *)
Definition same_folder_tree (root : string) : option node :=
  if (root =? "/repo")%string then Some (Dir [("cypress.json", File)])
  else if (root =? "/repo/cypress/integration")%string
  then Some (Dir [("a.ts", File)])
  else None.

Definition same_folder_host : Host :=
  Sample.host same_folder_tree (Ok (raw_with_component "cypress/integration"))
    Sample.no_module [].

(** A working directory with a directory that cannot be read. *)
Definition unreadable_tree (root : string) : option node :=
  Some (Dir [("cypress.json", File);
             ("secret", Unreadable "Error: EACCES: permission denied")]).

Definition unreadable_host : Host :=
  Sample.host unreadable_tree (Ok Sample.empty_raw9) Sample.no_module [].

(** [@actions/glob] over a fixed set of absolute paths: the config
    pattern finds [found], any other pattern finds [specs]. *)
Definition globber (found specs : list string) (patterns : string)
    (followSymbolicLinks : bool) : outcome (list string) :=
  if (patterns =? "**/cypress.json")%string then Ok found else Ok specs.

End Fixture.

(** * Properties *)

Example sample_legacy_run :
  parse Sample.legacy_host (Sample.config (JS.of_nat 2))
  = (Ok tt,
     [SetOutput "integration-tests"
        [Some "cypress/integration/t1.ts,cypress/integration/t2.ts,cypress/integration/t3.ts";
         Some "cypress/integration/t4.ts,cypress/integration/t5.ts"]]).
Proof. vm_compute. reflexivity. Qed.

Example sample_modern_run :
  parse Sample.modern_host (Sample.config JS.NaN)
  = (Ok tt,
     [SetOutput "integration-tests" [Some "a.cy.ts"];
      SetOutput "component-tests" [Some "b.cy.ts"]]).
Proof. vm_compute. reflexivity. Qed.

Example sample_bare_run :
  parse Sample.bare_host (Sample.config JS.NaN)
  = (Ok tt, [SetFailed "No supported Cypress config file found."]).
Proof. vm_compute. reflexivity. Qed.

Example sample_ambiguous_run :
  parse Sample.ambiguous_host (Sample.config JS.NaN)
  = (Ok tt,
     [LogError "Multiple Cypress config files found.";
      SetFailed "No supported Cypress config file found."]).
Proof. vm_compute. reflexivity. Qed.

Example sample_malformed_run :
  parse Sample.malformed_host (Sample.config JS.NaN)
  = (Ok tt,
     [LogError "Failed to parse cypress tests: SyntaxError: Unexpected token";
      SetFailed "No tests found"]).
Proof. vm_compute. reflexivity. Qed.

Example sample_broken_ts_run :
  snd (parse Sample.broken_ts_host (Sample.config JS.NaN))
  = [LogError ("Failed to parse cypress tests: Error: Failed to transpile Cypress typescript config at "
               ++ CypressConfigParser.quote ++ "/repo//repo/cypress.config.ts"
               ++ CypressConfigParser.quote);
     SetFailed "No tests found"].
Proof. vm_compute. reflexivity. Qed.

(** ** Test grouping *)

Section Grouping.

(** *** Quotients of naturals as JavaScript computes them *)

Lemma Qeq_bool_inject_Z_0 (z : Z) : (0 < z)%Z -> Qeq_bool (inject_Z z) 0 = false.
Proof.
  intros H. unfold Qeq_bool, inject_Z. simpl. rewrite Z.mul_1_r.
  apply Z.eqb_neq. lia.
Qed.

Lemma Z_ceil_as_div (n c : Z) : (0 < c)%Z -> (- (- n / c) = (n + c - 1) / c)%Z.
Proof.
  intros Hc.
  pose proof (Z.div_mod (-n) c ltac:(lia)).
  pose proof (Z.mod_pos_bound (-n) c Hc).
  pose proof (Z.div_mod (n + c - 1) c ltac:(lia)).
  pose proof (Z.mod_pos_bound (n + c - 1) c Hc).
  nia.
Qed.

Lemma Qceiling_div_nat (n c : nat) :
  0 < c ->
  Qceiling (inject_Z (Z.of_nat n) / inject_Z (Z.of_nat c)) = Z.of_nat (ceil_div n c).
Proof.
  intros Hc. unfold Qceiling.
  assert (E : (- (inject_Z (Z.of_nat n) / inject_Z (Z.of_nat c)) ==
               inject_Z (- Z.of_nat n) / inject_Z (Z.of_nat c))%Q).
  { rewrite inject_Z_opp. unfold Qdiv. ring. }
  rewrite E, <- Zdiv_Qdiv, Z_ceil_as_div by lia.
  unfold ceil_div. rewrite Nat2Z.inj_div, Nat2Z.inj_sub, Nat2Z.inj_add by lia.
  reflexivity.
Qed.

Lemma Qfloor_div_nat (i c : nat) :
  Qfloor (inject_Z (Z.of_nat i) / inject_Z (Z.of_nat c)) = Z.of_nat (i / c).
Proof. rewrite <- Zdiv_Qdiv, Nat2Z.inj_div. reflexivity. Qed.

Lemma Math_ceil_div_nat (n c : nat) :
  0 < c -> JS.Math_ceil (JS.div (JS.of_nat n) (JS.of_nat c)) = JS.of_nat (ceil_div n c).
Proof.
  intros Hc. unfold JS.of_nat, JS.div.
  rewrite Qeq_bool_inject_Z_0 by lia. unfold JS.Math_ceil.
  rewrite Qceiling_div_nat by assumption. reflexivity.
Qed.

Lemma Math_floor_div_nat (i c : nat) :
  0 < c -> JS.Math_floor (JS.div (JS.of_nat i) (JS.of_nat c)) = JS.of_nat (i / c).
Proof.
  intros Hc. unfold JS.of_nat, JS.div.
  rewrite Qeq_bool_inject_Z_0 by lia. unfold JS.Math_floor.
  rewrite Qfloor_div_nat. reflexivity.
Qed.

Lemma as_index_of_nat (k : nat) : JS.as_index (JS.of_nat k) = Some k.
Proof.
  unfold JS.as_index, JS.of_nat. rewrite Qfloor_Z.
  rewrite Qeq_bool_refl. simpl.
  replace (0 <=? Z.of_nat k)%Z with true by (symmetry; apply Z.leb_le; lia).
  rewrite Nat2Z.id. reflexivity.
Qed.

Lemma ceil_div_eq (n cs : nat) :
  0 < cs ->
  ceil_div n cs = if n mod cs =? 0 then n / cs else S (n / cs).
Proof.
  intros Hcs. unfold ceil_div.
  pose proof (Nat.div_mod_eq n cs) as E.
  pose proof (Nat.mod_upper_bound n cs ltac:(lia)) as B.
  destruct (Nat.eqb_spec (n mod cs) 0) as [Z | NZ].
  - symmetry. apply Nat.div_unique with (r := cs - 1); lia.
  - symmetry. apply Nat.div_unique with (r := n mod cs - 1); lia.
Qed.

Lemma chunk_at_snoc_full (cs : nat) (l : list string) (x : string) (i : nat) :
  i * cs + cs <= length l ->
  chunk_at cs (l ++ [x]) i = chunk_at cs l i.
Proof.
  intros H. unfold chunk_at.
  rewrite skipn_app, firstn_app, length_skipn.
  replace (i * cs - length l) with 0 by lia.
  replace (cs - (length l - i * cs)) with 0 by lia.
  simpl. apply app_nil_r.
Qed.

Lemma chunk_at_snoc_partial (cs : nat) (l : list string) (x : string) (i : nat) :
  0 < cs -> i * cs <= length l < i * cs + cs ->
  chunk_at cs (l ++ [x]) i = chunk_at cs l i ++ [x].
Proof.
  intros Hcs H. unfold chunk_at.
  rewrite skipn_app, firstn_app, length_skipn.
  replace (i * cs - length l) with 0 by lia.
  simpl skipn.
  destruct (cs - (length l - i * cs)) eqn:E; [lia |].
  simpl. rewrite firstn_nil. reflexivity.
Qed.

Lemma ceil_div_S (n cs : nat) : 0 < cs -> ceil_div (S n) cs = S (n / cs).
Proof.
  intros Hcs. unfold ceil_div.
  replace (S n + cs - 1) with (n + 1 * cs) by lia.
  rewrite Nat.div_add by lia. lia.
Qed.

Lemma chunks_split (cs : nat) (l : list string) :
  0 < cs ->
  chunks cs l =
    List.map (chunk_at cs l) (seq 0 (length l / cs))
    ++ (if length l mod cs =? 0 then [] else [chunk_at cs l (length l / cs)]).
Proof.
  intros Hcs. unfold chunks. rewrite ceil_div_eq by assumption.
  destruct (length l mod cs =? 0).
  - symmetry. apply app_nil_r.
  - rewrite seq_S, map_app. reflexivity.
Qed.

Lemma chunks_snoc (cs : nat) (l : list string) (x : string) :
  0 < cs ->
  chunks cs (l ++ [x]) =
    List.map (chunk_at cs l) (seq 0 (length l / cs))
    ++ [chunk_at cs l (length l / cs) ++ [x]].
Proof.
  intros Hcs.
  pose proof (Nat.div_mod_eq (length l) cs) as E.
  pose proof (Nat.mod_upper_bound (length l) cs ltac:(lia)) as B.
  unfold chunks. rewrite length_app. simpl length.
  rewrite Nat.add_1_r, ceil_div_S by assumption.
  rewrite seq_S, map_app. simpl. f_equal.
  - apply map_ext_in. intros i Hi. apply in_seq in Hi.
    apply chunk_at_snoc_full. nia.
  - f_equal. apply chunk_at_snoc_partial; [assumption | nia].
Qed.

Lemma chunk_at_end (cs : nat) (l : list string) :
  length l mod cs = 0 -> chunk_at cs l (length l / cs) = [].
Proof.
  intros Hr. unfold chunk_at.
  pose proof (Nat.div_mod_eq (length l) cs) as E.
  rewrite skipn_all2 by nia. apply firstn_nil.
Qed.

Lemma get_dense_end (pre : list (list string)) (rest : JS.array (list string)) :
  JS.get (JS.dense pre ++ rest) (length pre) = JS.get rest 0.
Proof.
  unfold JS.get, JS.dense.
  rewrite nth_error_app2 by (rewrite length_map; lia).
  rewrite length_map, Nat.sub_diag. reflexivity.
Qed.

Lemma set_dense_new (pre : list (list string)) (v : list string) :
  JS.set (JS.dense pre) (length pre) v = JS.dense pre ++ [Some v].
Proof.
  unfold JS.set, JS.dense. rewrite length_map, Nat.ltb_irrefl, Nat.sub_diag.
  reflexivity.
Qed.

Lemma set_dense_last (pre : list (list string)) (old : option (list string))
    (v : list string) :
  JS.set (JS.dense pre ++ [old]) (length pre) v = JS.dense pre ++ [Some v].
Proof.
  unfold JS.set, JS.dense. rewrite length_app, length_map. simpl length.
  replace (length pre <? length pre + 1) with true
    by (symmetry; apply Nat.ltb_lt; lia).
  rewrite firstn_app, length_map, Nat.sub_diag, firstn_0, app_nil_r.
  rewrite firstn_all2 by (rewrite length_map; lia).
  rewrite skipn_all2 by (rewrite length_app, length_map; simpl; lia).
  reflexivity.
Qed.

Lemma dense_app {A : Type} (l1 l2 : list A) :
  JS.dense (l1 ++ l2) = JS.dense l1 ++ JS.dense l2.
Proof. apply map_app. Qed.

Lemma group_step_dense_new (c : JS.number) (pre : list (list string))
    (x : string) (index : nat) :
  JS.as_index (JS.Math_floor (JS.div (JS.of_nat index) c)) = Some (length pre) ->
  group_step c (JS.dense pre) x index = JS.dense (pre ++ [[x]]).
Proof.
  intros Hi. unfold group_step. rewrite Hi.
  assert (G0 : JS.get (JS.dense pre) (length pre) = None).
  { rewrite <- (app_nil_r (JS.dense pre)), get_dense_end. reflexivity. }
  rewrite G0, set_dense_new, get_dense_end. cbn [JS.get nth_error].
  rewrite set_dense_last, dense_app. reflexivity.
Qed.

Lemma group_step_dense_last (c : JS.number) (pre : list (list string))
    (g : list string) (x : string) (index : nat) :
  JS.as_index (JS.Math_floor (JS.div (JS.of_nat index) c)) = Some (length pre) ->
  group_step c (JS.dense (pre ++ [g])) x index = JS.dense (pre ++ [g ++ [x]]).
Proof.
  intros Hi. unfold group_step. rewrite Hi.
  rewrite !dense_app.
  change (JS.dense [g]) with [Some g].
  change (JS.dense [g ++ [x]]) with [Some (g ++ [x])].
  rewrite get_dense_end. cbn [JS.get nth_error].
  rewrite get_dense_end. cbn [JS.get nth_error].
  rewrite set_dense_last. reflexivity.
Qed.

Lemma group_step_chunks (cs : nat) (l : list string) (x : string) :
  0 < cs ->
  group_step (JS.of_nat cs) (JS.dense (chunks cs l)) x (length l)
  = JS.dense (chunks cs (l ++ [x])).
Proof.
  intros Hcs.
  rewrite chunks_snoc, chunks_split by assumption.
  set (pre := List.map (chunk_at cs l) (seq 0 (length l / cs))).
  assert (Hi : JS.as_index
                 (JS.Math_floor (JS.div (JS.of_nat (length l)) (JS.of_nat cs)))
               = Some (length pre)).
  { rewrite Math_floor_div_nat, as_index_of_nat by assumption.
    unfold pre. rewrite length_map, length_seq. reflexivity. }
  destruct (Nat.eqb_spec (length l mod cs) 0) as [Hr | Hr].
  - rewrite chunk_at_end, app_nil_r by assumption.
    apply group_step_dense_new. exact Hi.
  - apply group_step_dense_last. exact Hi.
Qed.

Lemma reduce_from_chunks (cs : nat) (rest done : list string) :
  0 < cs ->
  JS.reduce_from (group_step (JS.of_nat cs)) rest (length done)
    (JS.dense (chunks cs done))
  = JS.dense (chunks cs (done ++ rest)).
Proof.
  intros Hcs. revert done.
  induction rest as [| x rest IH]; intros done.
  - rewrite app_nil_r. reflexivity.
  - cbn [JS.reduce_from]. rewrite group_step_chunks by assumption.
    replace (S (length done)) with (length (done ++ [x]))
      by (rewrite length_app; simpl; lia).
    rewrite IH, <- app_assoc. reflexivity.
Qed.

Lemma firstn_concat_chunks (cs : nat) (l : list string) (k : nat) :
  concat (List.map (chunk_at cs l) (seq 0 k)) = firstn (k * cs) l.
Proof.
  induction k as [| k IH].
  - reflexivity.
  - rewrite seq_S, map_app, concat_app, IH. simpl.
    rewrite app_nil_r. unfold chunk_at.
    rewrite <- (firstn_skipn (k * cs) (firstn (cs + k * cs) l)).
    rewrite firstn_firstn, Nat.min_l by lia.
    f_equal. rewrite skipn_firstn_comm. f_equal. lia.
Qed.

Lemma ceil_div_mul_ge (n cs : nat) : 0 < cs -> n <= ceil_div n cs * cs.
Proof.
  intros Hcs. rewrite ceil_div_eq by assumption.
  pose proof (Nat.div_mod_eq n cs) as E.
  pose proof (Nat.mod_upper_bound n cs ltac:(lia)) as B.
  destruct (Nat.eqb_spec (n mod cs) 0); nia.
Qed.

Lemma ceil_div_pred_mul_lt (n cs i : nat) :
  0 < cs -> i < ceil_div n cs -> i * cs < n.
Proof.
  intros Hcs. rewrite ceil_div_eq by assumption.
  pose proof (Nat.div_mod_eq n cs) as E.
  pose proof (Nat.mod_upper_bound n cs ltac:(lia)) as B.
  destruct (Nat.eqb_spec (n mod cs) 0); nia.
Qed.

Lemma ceil_div_pos (n c : nat) : 0 < c -> 0 < n -> 0 < ceil_div n c.
Proof.
  intros Hc Hn. rewrite ceil_div_eq by assumption.
  pose proof (Nat.div_mod_eq n c) as E.
  destruct (Nat.eqb_spec (n mod c) 0); nia.
Qed.

Lemma ceil_div_0_l (c : nat) : ceil_div 0 c = 0.
Proof.
  unfold ceil_div. destruct c as [| c]; [reflexivity |].
  apply Nat.div_small. lia.
Qed.

Lemma ceil_div_ceil_div_le (n c : nat) :
  0 < c -> ceil_div n (ceil_div n c) <= c.
Proof.
  intros Hc.
  destruct (Nat.eq_dec n 0) as [-> | Hn].
  - rewrite !ceil_div_0_l. lia.
  - pose proof (ceil_div_pos n c Hc ltac:(lia)) as Hcs.
    pose proof (ceil_div_mul_ge n c Hc) as Hge.
    destruct (Nat.le_gt_cases (ceil_div n (ceil_div n c)) c) as [H | H]; [exact H |].
    exfalso.
    pose proof (ceil_div_pred_mul_lt n (ceil_div n c) c Hcs H). nia.
Qed.

Lemma le_zero_of_nat (c : nat) : 0 < c -> JS.le_zero (JS.of_nat c) = false.
Proof.
  intros Hc. unfold JS.le_zero, JS.of_nat, Qle_bool. simpl.
  apply Z.leb_gt. lia.
Qed.

Lemma map_dense {A B : Type} (f : A -> B) (l : list A) :
  JS.map f (JS.dense l) = JS.dense (List.map f l).
Proof. unfold JS.map, JS.dense. rewrite !map_map. reflexivity. Qed.

Lemma chunks_nil (cs : nat) : chunks cs [] = [].
Proof. unfold chunks. simpl length. rewrite ceil_div_0_l. reflexivity. Qed.

Lemma createTestGroups_chunks (count : nat) (paths : list string) :
  0 < count ->
  createTestGroups (JS.of_nat count) paths
  = JS.dense (List.map (JS.join ",") (chunks (ceil_div (length paths) count) paths)).
Proof.
  intros Hc. unfold createTestGroups.
  rewrite le_zero_of_nat by assumption. cbn [JS.isNaN JS.of_nat orb].
  fold (JS.of_nat count). fold (JS.of_nat (length paths)).
  rewrite Math_ceil_div_nat by assumption.
  rewrite <- map_dense. f_equal.
  destruct paths as [| p paths].
  - rewrite chunks_nil. reflexivity.
  - unfold JS.reduce.
    pose proof (ceil_div_pos (length (p :: paths)) count Hc ltac:(simpl; lia)) as Hcs.
    pose proof (reduce_from_chunks _ (p :: paths) [] Hcs) as R.
    rewrite chunks_nil in R. exact R.
Qed.

Lemma length_chunks (cs : nat) (l : list string) :
  length (chunks cs l) = ceil_div (length l) cs.
Proof. unfold chunks. rewrite length_map, length_seq. reflexivity. Qed.

Lemma nth_chunks (cs : nat) (l : list string) (i : nat) :
  i < length (chunks cs l) -> nth i (chunks cs l) [] = chunk_at cs l i.
Proof.
  intros Hi. rewrite length_chunks in Hi. unfold chunks.
  rewrite (nth_indep _ [] (chunk_at cs l 0)) by (rewrite length_map, length_seq; exact Hi).
  rewrite map_nth, seq_nth by exact Hi. reflexivity.
Qed.

Lemma concat_chunks (cs : nat) (l : list string) :
  0 < cs -> concat (chunks cs l) = l.
Proof.
  intros Hcs. unfold chunks. rewrite firstn_concat_chunks.
  apply firstn_all2. apply ceil_div_mul_ge. exact Hcs.
Qed.

Lemma length_chunk_at (cs : nat) (l : list string) (i : nat) :
  length (chunk_at cs l i) = Nat.min cs (length l - i * cs).
Proof. unfold chunk_at. rewrite length_firstn, length_skipn. reflexivity. Qed.

End Grouping.

(** C1: for every list of paths and every positive integer count,
    [createTestGroups] returns the comma-joined contiguous chunks of size
    [ceil(len / count)], in the original order.  There are
    [ceil(len / chunkSize)] groups, at most [count]; the groups
    concatenate to the input; none is empty; every group but the last
    has exactly [chunkSize] entries and the last has at most that. *)
Theorem createTestGroups_partitions (count : nat) (paths : list string) :
  0 < count ->
  let chunkSize := ceil_div (length paths) count in
  let groups := chunks chunkSize paths in
  createTestGroups (JS.of_nat count) paths = JS.dense (List.map (JS.join ",") groups)
  /\ length groups = ceil_div (length paths) chunkSize
  /\ length groups <= count
  /\ concat groups = paths
  /\ forall i, i < length groups ->
       nth i groups [] = firstn chunkSize (skipn (i * chunkSize) paths)
       /\ nth i groups [] <> []
       /\ length (nth i groups []) <= chunkSize
       /\ (S i < length groups -> length (nth i groups []) = chunkSize).
Proof.
  intros Hc chunkSize groups.
  split; [apply createTestGroups_chunks; exact Hc |].
  split; [apply length_chunks |].
  split; [unfold groups; rewrite length_chunks; apply ceil_div_ceil_div_le; exact Hc |].
  destruct paths as [| p paths].
  { unfold groups. rewrite chunks_nil. split; [reflexivity |].
    simpl. intros i Hi. lia. }
  assert (Hcs : 0 < chunkSize) by (apply ceil_div_pos; simpl; lia).
  split; [apply concat_chunks; exact Hcs |].
  intros i Hi. unfold groups in *. rewrite nth_chunks by exact Hi.
  rewrite length_chunks in *.
  pose proof (ceil_div_pred_mul_lt _ _ _ Hcs Hi) as Hlt.
  split; [reflexivity |].
  split.
  { intros E. apply (f_equal (@length string)) in E.
    rewrite length_chunk_at in E. change (length (@nil string)) with 0 in E. lia. }
  split; [rewrite length_chunk_at; lia |].
  intros HS. rewrite length_chunk_at.
  pose proof (ceil_div_pred_mul_lt _ _ _ Hcs HS). lia.
Qed.

Lemma createTestGroups_partitions_witness :
  createTestGroups (JS.of_nat 2) ["p1"; "p2"; "p3"; "p4"; "p5"]
  = [Some "p1,p2,p3"; Some "p4,p5"].
Proof.
  exact (proj1 (createTestGroups_partitions 2 ["p1"; "p2"; "p3"; "p4"; "p5"]
                  ltac:(lia))).
Defined.

(** C8 as stated fails: a count of 2.5 is not a positive integer, yet
    five paths are grouped in chunks of [ceil(5 / 2.5) = 2]. *)
Lemma createTestGroups_fractional_count :
  ~ (forall (count : JS.number) (tests : list string),
       is_positive_integer count = false ->
       createTestGroups count tests = JS.dense tests).
Proof.
  intros H.
  specialize (H (JS.Num (5 # 2)) ["a"; "b"; "c"; "d"; "e"] eq_refl).
  vm_compute in H. discriminate H.
Qed.

Example createTestGroups_2_5 :
  createTestGroups (JS.Num (5 # 2)) ["a"; "b"; "c"; "d"; "e"]
  = [Some "a,b"; Some "c,d"; Some "e"].
Proof. vm_compute. reflexivity. Qed.

(** A count of [Infinity] passes the guard as well; every item then goes
    to a named property and the result is the empty array. *)
Example createTestGroups_Infinity :
  createTestGroups JS.PosInfinity ["a"; "b"; "c"] = [].
Proof. vm_compute. reflexivity. Qed.

(** C8, amended: for every count that is [NaN] or at most zero, and every
    list of paths, [createTestGroups] returns the paths unchanged and
    unjoined. *)
Theorem createTestGroups_invalid_count (count : JS.number) (tests : list string) :
  JS.isNaN count = true \/ JS.le_zero count = true ->
  createTestGroups count tests = JS.dense tests.
Proof.
  intros H. unfold createTestGroups.
  replace (JS.isNaN count || JS.le_zero count) with true; [reflexivity |].
  symmetry. apply orb_true_iff. exact H.
Qed.

Lemma createTestGroups_invalid_count_witness :
  createTestGroups (JS.of_nat 0) ["t1.ts"; "t2.ts"] = [Some "t1.ts"; Some "t2.ts"]
  /\ createTestGroups JS.NaN ["t1.ts"; "t2.ts"] = [Some "t1.ts"; Some "t2.ts"].
Proof.
  split.
  - apply (createTestGroups_invalid_count (JS.of_nat 0) ["t1.ts"; "t2.ts"]).
    right. reflexivity.
  - apply (createTestGroups_invalid_count JS.NaN ["t1.ts"; "t2.ts"]).
    left. reflexivity.
Defined.

(** ** Effects: equations *)

Section Effects.

Lemma bind_ok {A B : Type} (a : A) (evs : list event) (f : A -> M B) :
  bind (Ok a, evs) f = (fst (f a), evs ++ snd (f a)).
Proof. unfold bind. destruct (f a). reflexivity. Qed.

Lemma bind_throw {A B : Type} (e : string) (evs : list event) (f : A -> M B) :
  bind (Throw e, evs) f = (Throw e, evs).
Proof. reflexivity. Qed.

Lemma bind_lift_ok {A B : Type} (a : A) (f : A -> M B) :
  bind (lift (Ok a)) f = f a.
Proof. unfold lift. rewrite bind_ok. destruct (f a). reflexivity. Qed.

Lemma bind_ret {A B : Type} (a : A) (f : A -> M B) : bind (ret a) f = f a.
Proof. apply bind_lift_ok. Qed.

Lemma try_catch_throw {A : Type} (e : string) (evs : list event)
    (handler : string -> M A) :
  try_catch (Throw e, evs) handler = (fst (handler e), evs ++ snd (handler e)).
Proof. unfold try_catch. destruct (handler e). reflexivity. Qed.

Lemma failures_app (evs evs' : list event) :
  failures (evs ++ evs') = failures evs ++ failures evs'.
Proof. apply flat_map_app. Qed.

Lemma outputs_app (evs evs' : list event) :
  outputs (evs ++ evs') = outputs evs ++ outputs evs'.
Proof. apply flat_map_app. Qed.

End Effects.

(** ** Glob helper and config locator *)

Section Locator.
Variable host : Host.

Lemma glob_events (root : string) (pattern ignorePattern : list string) :
  snd (glob host root pattern ignorePattern) = [].
Proof.
  unfold glob. destruct (fs_node host root) as [dir |]; [| reflexivity].
  destruct (listFiles "" dir); reflexivity.
Qed.

Lemma fold_filter_In (g : string -> string -> bool) (ps l : list string)
    (f : string) :
  In f (fold_left (fun files p => filter (g p) files) ps l) ->
  In f l /\ forall p, In p ps -> g p f = true.
Proof.
  revert l. induction ps as [| q rest IH]; intros l Hf.
  - split; [exact Hf | intros p []].
  - simpl in Hf. apply IH in Hf. destruct Hf as [Hq Hrest].
    apply filter_In in Hq. destruct Hq as [Hl Hq].
    split; [exact Hl |].
    intros p [<- | Hp]; [exact Hq | apply Hrest; exact Hp].
Qed.

Lemma glob_excludes (root : string) (pattern ignorePattern : list string)
    (files : list string) (evs : list event) :
  glob host root pattern ignorePattern = (Ok files, evs) ->
  forall f p, In f files -> In p ignorePattern ->
    minimatch host f ("!" ++ p) = true.
Proof.
  unfold glob. destruct (fs_node host root) as [dir |].
  - destruct (listFiles "" dir) as [all | e]; [| discriminate].
    rewrite bind_lift_ok. unfold ret. intros E. inversion E as [[Hf]]. clear E.
    intros f p Hin Hp. subst files.
    apply (fold_filter_In (fun p f => minimatch host f ("!" ++ p))) in Hin.
    apply Hin. exact Hp.
  - unfold ret. intros E. inversion E. subst. intros f p [].
Qed.

Lemma hasConfigFile_true_iff (names : list string) (workingDirectory : string) :
  fst (hasConfigFile host names workingDirectory) = Ok true
  <-> exists file evs,
        glob host (getWorkingDirectory host workingDirectory) names []
        = (Ok [file], evs)
        /\ path_join host workingDirectory file <> "".
Proof.
  unfold hasConfigFile, getConfigFile.
  destruct (glob host (getWorkingDirectory host workingDirectory) names [])
    as [[results | e] evs] eqn:G.
  - destruct results as [| file [| file' rest]]; simpl.
    + split; [discriminate | intros (f & ev & E & _); discriminate E].
    + split.
      * intros H. exists file, evs. split; [reflexivity |].
        inversion H as [N]. apply negb_true_iff in N.
        apply String.eqb_neq. exact N.
      * intros (f & ev & E & N). inversion E. subst f ev.
        apply String.eqb_neq in N. rewrite N. reflexivity.
    + split; [discriminate | intros (f & ev & E & _); discriminate E].
  - simpl. split; [discriminate | intros (f & ev & E & _); discriminate E].
Qed.

End Locator.

(** C10: when the root directory does not exist, [glob] returns the empty
    list without raising, whatever the patterns; a discovery rule whose
    root folder is missing therefore yields an empty test list. *)
Theorem glob_missing_root (host : Host) (root : string)
    (pattern ignorePattern : list string) :
  fs_node host root = None ->
  glob host root pattern ignorePattern = (Ok [], [])
  /\ forall workingDirectory testFolder specPattern excludeSpecPattern,
       path_join host workingDirectory testFolder = root ->
       parseTestOfType host workingDirectory testFolder specPattern
         excludeSpecPattern = (Ok [], []).
Proof.
  intros Hroot. split.
  - unfold glob. rewrite Hroot. reflexivity.
  - intros wd folder spec excl Hjoin.
    unfold parseTestOfType, glob. cbn [rootFolder discoveryRule].
    rewrite Hjoin, Hroot. reflexivity.
Qed.

Lemma glob_missing_root_witness :
  glob Sample.legacy_host "/repo/src" ["**/*.*"] ["**/*.old.ts"] = (Ok [], [])
  /\ parseTestOfType Sample.legacy_host "/repo" "src" (Single "**/*.*") None
     = (Ok [], []).
Proof.
  destruct (glob_missing_root Sample.legacy_host "/repo/src" ["**/*.*"]
              ["**/*.old.ts"] eq_refl) as [G P].
  split; [exact G |].
  apply P. reflexivity.
Defined.

(** C7: [getConfigFile] returns [null] when no file matches; logs an
    error and returns [null] when more than one matches, which
    [hasConfigFile] reports exactly as it reports no match; and returns
    the single match joined to the working directory otherwise. *)
Theorem getConfigFile_cases (host : Host) (names : list string)
    (workingDirectory : string) (results : list string) (evs : list event) :
  glob host (getWorkingDirectory host workingDirectory) names [] = (Ok results, evs) ->
  (results = [] ->
     getConfigFile host names workingDirectory = (Ok None, evs)
     /\ fst (hasConfigFile host names workingDirectory) = Ok false)
  /\ (1 < length results ->
        getConfigFile host names workingDirectory
        = (Ok None, evs ++ [LogError "Multiple Cypress config files found."])
        /\ fst (hasConfigFile host names workingDirectory) = Ok false)
  /\ (forall file, results = [file] ->
        getConfigFile host names workingDirectory
        = (Ok (Some (path_join host workingDirectory file)), evs)).
Proof.
  intros G. unfold hasConfigFile, getConfigFile. rewrite G, bind_ok.
  split; [| split].
  - intros ->. simpl. rewrite app_nil_r. split; reflexivity.
  - intros Hlen.
    destruct results as [| r1 [| r2 rest]]; simpl in Hlen; try lia.
    simpl. split; reflexivity.
  - intros file ->. simpl. rewrite app_nil_r. reflexivity.
Qed.

Lemma getConfigFile_cases_witness :
  getConfigFile Sample.ambiguous_host ["cypress.json"] ""
  = (Ok None, [LogError "Multiple Cypress config files found."])
  /\ getConfigFile Sample.legacy_host ["cypress.json"] ""
     = (Ok (Some "cypress.json"), [])
  /\ getConfigFile Sample.bare_host ["cypress.json"] "" = (Ok None, []).
Proof.
  split; [| split].
  - destruct (getConfigFile_cases Sample.ambiguous_host ["cypress.json"] ""
                ["cypress.json"; "packages/cypress.json"] [] eq_refl)
      as (_ & Many_ & _).
    apply Many_. simpl. lia.
  - destruct (getConfigFile_cases Sample.legacy_host ["cypress.json"] ""
                ["cypress.json"] [] eq_refl) as (_ & _ & One).
    apply (One "cypress.json"). reflexivity.
  - destruct (getConfigFile_cases Sample.bare_host ["cypress.json"] "" [] []
                eq_refl) as (Zero & _).
    apply Zero. reflexivity.
Defined.

(** ** Only [parse] sets outputs or fails the run *)

Section Silence.

Lemma silent_ret {A : Type} (a : A) : silent (ret a).
Proof. constructor. Qed.

Lemma silent_throw {A : Type} (e : string) : silent (@throw A e).
Proof. constructor. Qed.

Lemma silent_lift {A : Type} (o : outcome A) : silent (lift o).
Proof. constructor. Qed.

Lemma silent_error (message : string) : silent (error message).
Proof. repeat constructor. Qed.

Lemma silent_bind {A B : Type} (m : M A) (f : A -> M B) :
  silent m -> (forall a, silent (f a)) -> silent (bind m f).
Proof.
  unfold silent. destruct m as [[a | e] evs]; simpl; intros Hm Hf.
  - specialize (Hf a). destruct (f a) as [r evs']. simpl in *.
    apply Forall_app. split; assumption.
  - exact Hm.
Qed.

Lemma silent_try_catch {A : Type} (m : M A) (handler : string -> M A) :
  silent m -> (forall e, silent (handler e)) -> silent (try_catch m handler).
Proof.
  unfold silent. destruct m as [[a | e] evs]; simpl; intros Hm Hh.
  - exact Hm.
  - specialize (Hh e). destruct (handler e) as [r evs']. simpl in *.
    apply Forall_app. split; assumption.
Qed.

Lemma silent_failures (evs : list event) : Forall is_log evs -> failures evs = [].
Proof.
  induction 1 as [| ev evs Hev _ IH]; [reflexivity |].
  destruct ev; simpl in *; try contradiction. exact IH.
Qed.

Lemma silent_outputs (evs : list event) : Forall is_log evs -> outputs evs = [].
Proof.
  induction 1 as [| ev evs Hev _ IH]; [reflexivity |].
  destruct ev; simpl in *; try contradiction. exact IH.
Qed.

End Silence.

Create HintDb silence.
#[local] Hint Resolve silent_ret silent_throw silent_lift silent_error : silence.

Ltac silence :=
  repeat first
    [ solve [auto with silence]
    | apply silent_bind; [| intros]
    | apply silent_try_catch; [| intros]
    | match goal with
      | |- silent (if ?b then _ else _) => destruct b
      | |- silent (match ?x with _ => _ end) => destruct x
      | |- silent (let (_, _) := ?x in _) => destruct x
      end ].

Section SilentParsers.
Variable host : Host.

Lemma silent_glob (root : string) (pattern ignorePattern : list string) :
  silent (glob host root pattern ignorePattern).
Proof. unfold silent. rewrite glob_events. constructor. Qed.
Hint Resolve silent_glob : silence.

Lemma silent_getConfigFile (names : list string) (workingDirectory : string) :
  silent (getConfigFile host names workingDirectory).
Proof. unfold getConfigFile. silence. Qed.
Hint Resolve silent_getConfigFile : silence.

Lemma silent_hasConfigFile (names : list string) (workingDirectory : string) :
  silent (hasConfigFile host names workingDirectory).
Proof. unfold hasConfigFile. silence. Qed.
Hint Resolve silent_hasConfigFile : silence.

Lemma silent_parseTestOfType (workingDirectory testFolder : string)
    (specPattern : SpecPattern) (excludeSpecPattern : option SpecPattern) :
  silent (parseTestOfType host workingDirectory testFolder specPattern
            excludeSpecPattern).
Proof. unfold parseTestOfType. silence. Qed.
Hint Resolve silent_parseTestOfType : silence.

Lemma silent_parserFactory (config : Config) : silent (parserFactory host config).
Proof. unfold parserFactory. silence. Qed.

Lemma silent_processConfig (configFilePath : option string) :
  silent (CypressConfigParser.processConfig host configFilePath).
Proof. unfold CypressConfigParser.processConfig. silence. Qed.
Hint Resolve silent_processConfig : silence.

Lemma silent_transpileTypescriptConfig (configFilePath : string) :
  silent (CypressConfigParser.transpileTypescriptConfig host configFilePath).
Proof. unfold CypressConfigParser.transpileTypescriptConfig. silence. Qed.
Hint Resolve silent_transpileTypescriptConfig : silence.

Lemma silent_parseTests (c : ParserClass) (config : Config) :
  silent (parseTests host c config).
Proof.
  destruct c; unfold parseTests, CypressConfigParser.parseTests,
    Cypress9ConfigParser.parseTests, CypressConfigParser.loadConfigTS,
    CypressConfigParser.loadConfigJS, Cypress9ConfigParser.loadConfig;
    silence.
Qed.

End SilentParsers.

(** ** Parser facade *)

Section Facade.
Variable host : Host.

Lemma parseTests_returns (c : ParserClass) (config : Config) :
  exists tests evs, parseTests host c config = (Ok tests, evs).
Proof.
  assert (T : forall (m : M TestFiles) (h : string -> M TestFiles),
             (forall e, exists t evs, h e = (Ok t, evs)) ->
             exists t evs, try_catch m h = (Ok t, evs)).
  { intros [[t | e] evs] h Hh; simpl.
    - eauto.
    - destruct (Hh e) as (t & evs' & ->). eauto. }
  destruct c; apply T; intros e; simpl; eauto.
Qed.

Lemma parse_selected (config : Config) (parser : ParserClass)
    (evs0 evs1 : list event) (tests : TestFiles) :
  parserFactory host config = (Ok (Some parser), evs0) ->
  parseTests host parser config = (Ok tests, evs1) ->
  parse host config = (Ok tt, evs0 ++ evs1 ++ report config tests).
Proof.
  intros F T. unfold parse, parse_body, report.
  rewrite F, bind_ok, T, bind_ok.
  destruct (noTests tests); [reflexivity |].
  destruct (componentTests tests); reflexivity.
Qed.

Lemma parse_not_selected (config : Config) (evs0 : list event) :
  parserFactory host config = (Ok None, evs0) ->
  parse host config
  = (Ok tt, evs0 ++ [SetFailed "No supported Cypress config file found."]).
Proof.
  intros F. unfold parse, parse_body. rewrite F, bind_ok. reflexivity.
Qed.

Lemma noTests_zero_files (tests : TestFiles) :
  noTests tests = true <-> zero_files tests.
Proof.
  unfold noTests, zero_files. destruct tests as [i c]; simpl.
  rewrite andb_true_iff, Nat.eqb_eq, length_zero_iff_nil.
  destruct c as [c |].
  - rewrite Nat.eqb_eq, length_zero_iff_nil. split.
    + intros [Hi Hc]. subst. auto.
    + intros [Hi [Hc | Hc]]; [discriminate | inversion Hc; auto].
  - split; intros [Hi _]; auto.
Qed.

Lemma parse_selected_results (config : Config) (parser : ParserClass)
    (evs0 evs1 : list event) (tests : TestFiles) :
  parserFactory host config = (Ok (Some parser), evs0) ->
  parseTests host parser config = (Ok tests, evs1) ->
  failures (snd (parse host config)) = failures (report config tests)
  /\ outputs (snd (parse host config)) = outputs (report config tests).
Proof.
  intros F T. rewrite (parse_selected _ _ _ _ _ F T). cbn [snd].
  pose proof (silent_parserFactory host config) as S0.
  pose proof (silent_parseTests host parser config) as S1.
  unfold silent in S0, S1. rewrite F in S0. rewrite T in S1. cbn [snd] in S0, S1.
  rewrite !failures_app, !outputs_app.
  rewrite (silent_failures _ S0), (silent_failures _ S1).
  rewrite (silent_outputs _ S0), (silent_outputs _ S1).
  split; reflexivity.
Qed.

End Facade.

(** C2: [parserFactory] tries the typed-script config
    ([cypress.config.ts]), then the plain-script configs
    ([cypress.config.js], [.mjs], [.cjs]), then the legacy
    [cypress.json], and takes the first class whose config file is
    present, that is, for which the locator finds exactly one file;
    when none is present the run fails with exactly
    "No supported Cypress config file found." and sets no output. *)
Theorem parserFactory_precedence (host : Host) (config : Config) :
  List.map VALID_CONFIG_FILE_NAMES precedence
  = [["cypress.config.ts"];
     ["cypress.config.js"; "cypress.config.mjs"; "cypress.config.cjs"];
     ["cypress.json"]]
  /\ parserFactory host config
     = selectAdapter host (workingDirectory config) precedence
  /\ (forall c,
        fst (hasConfigFile host (VALID_CONFIG_FILE_NAMES c) (workingDirectory config))
        = Ok true
        <-> exists file evs,
              glob host (getWorkingDirectory host (workingDirectory config))
                (VALID_CONFIG_FILE_NAMES c) []
              = (Ok [file], evs)
              /\ path_join host (workingDirectory config) file <> "")
  /\ (forall present : ParserClass -> bool,
        (forall c, fst (hasConfigFile host (VALID_CONFIG_FILE_NAMES c)
                          (workingDirectory config)) = Ok (present c)) ->
        fst (parserFactory host config) = Ok (find present precedence))
  /\ (fst (parserFactory host config) = Ok None ->
        fst (parse host config) = Ok tt
        /\ failures (snd (parse host config))
           = ["No supported Cypress config file found."]
        /\ outputs (snd (parse host config)) = []).
Proof.
  split; [reflexivity |].
  split; [reflexivity |].
  split; [intros c; apply hasConfigFile_true_iff |].
  split.
  - intros present Hp. unfold parserFactory.
    pose proof (Hp CypressTSConfigParser) as Hts.
    pose proof (Hp CypressJSConfigParser) as Hjs.
    pose proof (Hp Cypress9ConfigParser_) as Hv9.
    destruct (hasConfigFile host (VALID_CONFIG_FILE_NAMES CypressTSConfigParser) _)
      as [ts e0]. simpl in Hts. subst ts. rewrite bind_ok. simpl find.
    destruct (present CypressTSConfigParser); [reflexivity |].
    destruct (hasConfigFile host (VALID_CONFIG_FILE_NAMES CypressJSConfigParser) _)
      as [js e1]. simpl in Hjs. subst js. rewrite bind_ok.
    destruct (present CypressJSConfigParser); [reflexivity |].
    destruct (hasConfigFile host (VALID_CONFIG_FILE_NAMES Cypress9ConfigParser_) _)
      as [v9 e2]. simpl in Hv9. subst v9. rewrite bind_ok.
    destruct (present Cypress9ConfigParser_); reflexivity.
  - intros F.
    pose proof (silent_parserFactory host config) as S0. unfold silent in S0.
    destruct (parserFactory host config) as [r evs0] eqn:E.
    simpl in F, S0. subst r.
    rewrite (parse_not_selected host config evs0 E). cbn [fst snd].
    rewrite failures_app, outputs_app.
    rewrite (silent_failures _ S0), (silent_outputs _ S0).
    repeat split; reflexivity.
Qed.

Lemma parserFactory_precedence_witness :
  fst (parse Sample.bare_host (Sample.config JS.NaN)) = Ok tt
  /\ failures (snd (parse Sample.bare_host (Sample.config JS.NaN)))
     = ["No supported Cypress config file found."]
  /\ outputs (snd (parse Sample.bare_host (Sample.config JS.NaN))) = [].
Proof.
  destruct (parserFactory_precedence Sample.bare_host (Sample.config JS.NaN))
    as (_ & _ & _ & _ & NoConfig).
  apply NoConfig. reflexivity.
Defined.

(** C3: once an adapter is selected, the run fails with exactly
    "No tests found" and sets no output if and only if the integration
    category has no file and the component category is absent or has no
    file; otherwise nothing fails and the outputs are set. *)
Theorem parse_no_tests_found (host : Host) (config : Config) (parser : ParserClass) :
  fst (parserFactory host config) = Ok (Some parser) ->
  exists tests evs,
    parseTests host parser config = (Ok tests, evs)
    /\ fst (parse host config) = Ok tt
    /\ ((failures (snd (parse host config)) = ["No tests found"]
         /\ outputs (snd (parse host config)) = [])
        <-> zero_files tests)
    /\ (~ zero_files tests ->
        failures (snd (parse host config)) = []
        /\ outputs (snd (parse host config))
           = ("integration-tests",
              createTestGroups (countRunners config) (integrationTests tests))
             :: match componentTests tests with
                | Some componentTests =>
                    [("component-tests",
                      createTestGroups (countRunners config) componentTests)]
                | None => []
                end).
Proof.
  intros F.
  destruct (parserFactory host config) as [r evs0] eqn:E0. simpl in F. subst r.
  destruct (parseTests_returns host parser config) as (tests & evs1 & E1).
  exists tests, evs1. split; [exact E1 |].
  split; [rewrite (parse_selected host _ _ _ _ _ E0 E1); reflexivity |].
  destruct (parse_selected_results host _ _ _ _ _ E0 E1) as [-> ->].
  unfold report. rewrite <- noTests_zero_files.
  destruct (noTests tests) eqn:N.
  - split.
    + split; [intros _; reflexivity | intros _; split; reflexivity].
    + intros H. exfalso. apply H. reflexivity.
  - destruct (componentTests tests) as [c |]; simpl.
    + split; [split; [intros [H _]; discriminate H | discriminate] |].
      intros _. split; reflexivity.
    + split; [split; [intros [H _]; discriminate H | discriminate] |].
      intros _. split; reflexivity.
Qed.

Lemma parse_no_tests_found_witness :
  exists tests evs,
    parseTests Sample.malformed_host Cypress9ConfigParser_ (Sample.config JS.NaN)
    = (Ok tests, evs)
    /\ fst (parse Sample.malformed_host (Sample.config JS.NaN)) = Ok tt
    /\ ((failures (snd (parse Sample.malformed_host (Sample.config JS.NaN)))
         = ["No tests found"]
         /\ outputs (snd (parse Sample.malformed_host (Sample.config JS.NaN))) = [])
        <-> zero_files tests)
    /\ (~ zero_files tests ->
        failures (snd (parse Sample.malformed_host (Sample.config JS.NaN))) = []
        /\ outputs (snd (parse Sample.malformed_host (Sample.config JS.NaN)))
           = ("integration-tests",
              createTestGroups JS.NaN (integrationTests tests))
             :: match componentTests tests with
                | Some componentTests =>
                    [("component-tests", createTestGroups JS.NaN componentTests)]
                | None => []
                end).
Proof.
  apply (parse_no_tests_found Sample.malformed_host (Sample.config JS.NaN)
           Cypress9ConfigParser_).
  reflexivity.
Defined.

(** ** What makes [loadConfig] raise *)

Section LoadFailures.
Variable host : Host.

Lemma truthy_path_Some (p : string) : p <> "" -> truthy_path (Some p) = true.
Proof. intros N. simpl. apply String.eqb_neq in N. rewrite N. reflexivity. Qed.

(** Malformed JSON. *)
Lemma legacy_malformed_json (workingDirectory p data e : string)
    (evs : list event) :
  getConfigFile host Cypress9ConfigParser.VALID_CONFIG_FILE_NAMES workingDirectory
  = (Ok (Some p), evs) ->
  p <> "" ->
  readFileSync host p = Ok data ->
  JSON_parse host data = Throw e ->
  Cypress9ConfigParser.loadConfig host workingDirectory = (Throw e, evs).
Proof.
  intros G N R J. unfold Cypress9ConfigParser.loadConfig.
  rewrite G, bind_ok, (truthy_path_Some p N), R, bind_lift_ok, J.
  simpl. rewrite app_nil_r. reflexivity.
Qed.

(** Unreadable file. *)
Lemma legacy_unreadable_file (workingDirectory p e : string) (evs : list event) :
  getConfigFile host Cypress9ConfigParser.VALID_CONFIG_FILE_NAMES workingDirectory
  = (Ok (Some p), evs) ->
  p <> "" ->
  readFileSync host p = Throw e ->
  Cypress9ConfigParser.loadConfig host workingDirectory = (Throw e, evs).
Proof.
  intros G N R. unfold Cypress9ConfigParser.loadConfig.
  rewrite G, bind_ok, (truthy_path_Some p N), R.
  simpl. rewrite app_nil_r. reflexivity.
Qed.

(** Transpilation diagnostics. *)
Lemma typed_transpile_diagnostics (workingDirectory p js text out : string)
    (diagnostics : list string) (evs : list event) :
  getConfigFile host CypressConfigParser.TS_VALID_CONFIG_FILE_NAMES workingDirectory
  = (Ok (Some p), evs) ->
  p <> "" ->
  mkdtemp_config host = Ok js ->
  readFileSync host p = Ok text ->
  ts_transpileModule host text = (diagnostics, out) ->
  diagnostics <> [] ->
  CypressConfigParser.loadConfigTS host workingDirectory
  = (Throw (Error ("Failed to transpile Cypress typescript config at "
                   ++ CypressConfigParser.quote
                   ++ path_join host (process_cwd host) p
                   ++ CypressConfigParser.quote)),
     evs).
Proof.
  intros G N T R D NE.
  unfold CypressConfigParser.loadConfigTS,
    CypressConfigParser.transpileTypescriptConfig.
  rewrite G, bind_ok, (truthy_path_Some p N), T, bind_lift_ok, R, bind_lift_ok, D.
  destruct diagnostics as [| d rest]; [contradiction NE; reflexivity |].
  simpl. rewrite app_nil_r. reflexivity.
Qed.

(** The locator found no file, or several. *)
Lemma no_config_file_raises (c : ParserClass) (workingDirectory : string)
    (evs : list event) :
  getConfigFile host (VALID_CONFIG_FILE_NAMES c) workingDirectory = (Ok None, evs) ->
  loadConfig_raises host c workingDirectory
    (Error "no supported config file found.") evs.
Proof.
  intros G.
  destruct c; unfold loadConfig_raises, CypressConfigParser.loadConfigTS,
    CypressConfigParser.loadConfigJS, Cypress9ConfigParser.loadConfig;
    simpl in G; rewrite G; simpl; rewrite app_nil_r; reflexivity.
Qed.

End LoadFailures.

(** C4: for every adapter, [parseTests] never propagates an exception;
    when loading the configuration raises, it logs the exception with
    [error] and returns [{integrationTests: [], componentTests: []}], so
    a run that selected this adapter ends in "No tests found". *)
Theorem parseTests_catches (host : Host) (c : ParserClass) (config : Config) :
  (exists tests evs, parseTests host c config = (Ok tests, evs))
  /\ forall e evs,
       loadConfig_raises host c
         (getWorkingDirectory host (workingDirectory config)) e evs ->
       parseTests host c config
       = (Ok {| integrationTests := []; componentTests := Some [] |},
          evs ++ [LogError ("Failed to parse cypress tests: " ++ e)])
       /\ (fst (parserFactory host config) = Ok (Some c) ->
           fst (parse host config) = Ok tt
           /\ failures (snd (parse host config)) = ["No tests found"]
           /\ outputs (snd (parse host config)) = []).
Proof.
  split; [apply parseTests_returns |].
  intros e evs R.
  assert (P : parseTests host c config
              = (Ok emptyTestFiles,
                 evs ++ [LogError ("Failed to parse cypress tests: " ++ e)])).
  { destruct c; unfold loadConfig_raises in R;
      unfold parseTests, CypressConfigParser.parseTests,
        Cypress9ConfigParser.parseTests;
      rewrite R, bind_throw, try_catch_throw; reflexivity. }
  split; [exact P |].
  intros F. destruct (parserFactory host config) as [r evs0] eqn:E0.
  simpl in F. subst r.
  rewrite (parse_selected host _ _ _ _ _ E0 P).
  destruct (parse_selected_results host _ _ _ _ _ E0 P) as [Hf Ho].
  rewrite (parse_selected host _ _ _ _ _ E0 P) in Hf, Ho.
  rewrite Hf, Ho. repeat split; reflexivity.
Qed.

Lemma parseTests_catches_witness :
  parseTests Sample.malformed_host Cypress9ConfigParser_ (Sample.config JS.NaN)
  = (Ok {| integrationTests := []; componentTests := Some [] |},
     [LogError "Failed to parse cypress tests: SyntaxError: Unexpected token"])
  /\ parseTests Sample.broken_ts_host CypressTSConfigParser (Sample.config JS.NaN)
     = (Ok {| integrationTests := []; componentTests := Some [] |},
        [LogError ("Failed to parse cypress tests: "
                   ++ Error ("Failed to transpile Cypress typescript config at "
                             ++ CypressConfigParser.quote
                             ++ "/repo//repo/cypress.config.ts"
                             ++ CypressConfigParser.quote))]).
Proof.
  split.
  - destruct (parseTests_catches Sample.malformed_host Cypress9ConfigParser_
                (Sample.config JS.NaN)) as [_ Raises].
    apply (Raises "SyntaxError: Unexpected token" []). reflexivity.
  - destruct (parseTests_catches Sample.broken_ts_host CypressTSConfigParser
                (Sample.config JS.NaN)) as [_ Raises].
    apply (Raises (Error ("Failed to transpile Cypress typescript config at "
                          ++ CypressConfigParser.quote
                          ++ "/repo//repo/cypress.config.ts"
                          ++ CypressConfigParser.quote)) []).
    reflexivity.
Defined.

(** ** Modern adapter *)

Section Modern.
Variable host : Host.

Lemma parseTestOfType_excludes (workingDirectory testFolder : string)
    (specPattern : SpecPattern) (excludeSpecPattern : option SpecPattern)
    (tests : list string) (evs : list event) :
  parseTestOfType host workingDirectory testFolder specPattern excludeSpecPattern
  = (Ok tests, evs) ->
  forall t, In t tests ->
    exists f, t = path_join host testFolder f
      /\ forall p,
           In p (excludePatterns
                   (discoveryRule testFolder specPattern excludeSpecPattern)) ->
           minimatch host f ("!" ++ p) = true.
Proof.
  unfold parseTestOfType.
  set (rule := discoveryRule testFolder specPattern excludeSpecPattern).
  destruct (glob host (path_join host workingDirectory (rootFolder rule))
              (includePatterns rule) (excludePatterns rule))
    as [[files | e] evs0] eqn:G; [| discriminate].
  rewrite bind_ok. cbn [ret fst snd]. intros E. inversion E as [[Ht He]]. clear E He.
  intros t Hin. apply in_map_iff in Hin. destruct Hin as (f & <- & Hf).
  exists f. split; [reflexivity |].
  intros p Hp. eapply glob_excludes; eassumption.
Qed.

Lemma processConfig_loaded (p : string) (rawConfig : RawModule) :
  require host (path_resolve host p) = Ok rawConfig ->
  CypressConfigParser.processConfig host (Some p)
  = (Ok {| CypressConfigParser.e2e :=
             {| CypressConfigParser.specPattern :=
                  CypressConfigParser.e2eSpecPattern_of
                    (CypressConfigParser.unwrap rawConfig);
                CypressConfigParser.excludeSpecPattern :=
                  CypressConfigParser.e2eExcludeSpecPattern_of
                    (CypressConfigParser.unwrap rawConfig) |};
           CypressConfigParser.component :=
             {| CypressConfigParser.specPattern :=
                  CypressConfigParser.componentSpecPattern_of
                    (CypressConfigParser.unwrap rawConfig);
                CypressConfigParser.excludeSpecPattern :=
                  CypressConfigParser.componentExcludeSpecPattern_of
                    (CypressConfigParser.unwrap rawConfig)
                    (CypressConfigParser.e2eSpecPattern_of
                       (CypressConfigParser.unwrap rawConfig)) |} |},
     []).
Proof.
  intros R. unfold CypressConfigParser.processConfig.
  rewrite R, bind_lift_ok. reflexivity.
Qed.

Lemma componentExclude_shape (config : RawConfig) (e2eSpecPattern : list string) :
  CypressConfigParser.componentExcludeSpecPattern_of config e2eSpecPattern
  = ["**/node_modules/**"] ++ e2eSpecPattern
    ++ match section_excludeSpecPattern (raw_component config) with
       | Some explicit => filePatterns_of explicit
       | None => ["/snapshots/*"; "/image_snapshots/*"]
       end.
Proof.
  unfold CypressConfigParser.componentExcludeSpecPattern_of,
    section_excludeSpecPattern.
  destruct (raw_component config) as [section |]; [| reflexivity].
  destruct (raw_excludeSpecPattern section) as [[s | l] |]; reflexivity.
Qed.

End Modern.

(** C5: in the modern schema the resolved component exclude list is the
    [node_modules] pattern, then the resolved e2e include patterns, then
    the explicit component excludes or, without any, the two snapshot
    patterns.  So, with a matcher whose negated pattern rejects what the
    pattern accepts, no file the e2e include patterns match is in the
    component result. *)
Theorem component_excludes_e2e (host : Host) (p : string) (rawConfig : RawModule) :
  require host (path_resolve host p) = Ok rawConfig ->
  exists config,
    CypressConfigParser.processConfig host (Some p) = (Ok config, [])
    /\ let e2ePatterns :=
         CypressConfigParser.specPattern (CypressConfigParser.e2e config) in
       let component := CypressConfigParser.component config in
       CypressConfigParser.excludeSpecPattern component
       = ["**/node_modules/**"] ++ e2ePatterns
         ++ match section_excludeSpecPattern
                    (raw_component (CypressConfigParser.unwrap rawConfig)) with
            | Some explicit => filePatterns_of explicit
            | None => ["/snapshots/*"; "/image_snapshots/*"]
            end
       /\ incl e2ePatterns (CypressConfigParser.excludeSpecPattern component)
       /\ ((forall f pat, minimatch host f pat = true ->
                          minimatch host f ("!" ++ pat) = false) ->
           forall workingDirectory tests evs,
             parseTestOfType host workingDirectory ""
               (Many (CypressConfigParser.specPattern component))
               (Some (Many (CypressConfigParser.excludeSpecPattern component)))
             = (Ok tests, evs) ->
             forall t, In t tests ->
               exists f, t = path_join host "" f
                 /\ forall pat, In pat e2ePatterns -> minimatch host f pat = false).
Proof.
  intros R. eexists. split; [apply processConfig_loaded; exact R |].
  cbn [CypressConfigParser.e2e CypressConfigParser.component
       CypressConfigParser.specPattern CypressConfigParser.excludeSpecPattern].
  set (raw := CypressConfigParser.unwrap rawConfig).
  set (e2ePatterns := CypressConfigParser.e2eSpecPattern_of raw).
  assert (I : incl e2ePatterns
                (CypressConfigParser.componentExcludeSpecPattern_of raw e2ePatterns)).
  { rewrite componentExclude_shape. intros pat Hpat.
    apply in_or_app. right. apply in_or_app. left. exact Hpat. }
  split; [apply componentExclude_shape |].
  split; [exact I |].
  intros Hneg wd tests evs P t Hin.
  destruct (parseTestOfType_excludes host _ _ _ _ _ _ P t Hin) as (f & Ht & Hex).
  exists f. split; [exact Ht |].
  intros pat Hpat.
  destruct (minimatch host f pat) eqn:Hm; [| reflexivity].
  apply Hneg in Hm. rewrite Hex in Hm; [discriminate Hm |].
  apply I. exact Hpat.
Qed.

Lemma matches_negated (f pat : string) :
  Sample.matches f pat = true -> Sample.matches f ("!" ++ pat) = false.
Proof. intros H. simpl. rewrite H. reflexivity. Qed.

Lemma component_excludes_e2e_witness :
  exists config,
    CypressConfigParser.processConfig Sample.modern_host (Some "cypress.config.js")
    = (Ok config, [])
    /\ CypressConfigParser.excludeSpecPattern (CypressConfigParser.component config)
       = ["**/node_modules/**"; "a.cy.ts"; "/snapshots/*"; "/image_snapshots/*"]
    /\ forall t,
         In t ["b.cy.ts"] ->
         exists f, t = Sample.join "" f /\ Sample.matches f "a.cy.ts" = false.
Proof.
  destruct (component_excludes_e2e Sample.modern_host "cypress.config.js" _ eq_refl)
    as (config & P & Shape & _ & Excl).
  pose proof P as E. vm_compute in E. injection E as E. subst config.
  eexists. split; [exact P |].
  split; [exact Shape |].
  intros t Hin.
  destruct (Excl matches_negated "/repo" ["b.cy.ts"] [] eq_refl t Hin)
    as (f & Ht & Hf).
  exists f. split; [exact Ht |].
  apply Hf. left. reflexivity.
Defined.

(** ** Presence of the component category *)

Section ComponentCategory.
Variable host : Host.

Lemma try_catch_cases {A : Type} (m : M A) (handler : string -> M A)
    (a : A) (evs : list event) :
  try_catch m handler = (Ok a, evs) ->
  m = (Ok a, evs)
  \/ exists e evs0 evs1,
       m = (Throw e, evs0) /\ handler e = (Ok a, evs1) /\ evs = evs0 ++ evs1.
Proof.
  destruct m as [[a' | e] evs0]; simpl.
  - intros E. left. exact E.
  - destruct (handler e) as [r evs1] eqn:H. intros E. inversion E. subst.
    right. exists e, evs0, evs1. auto.
Qed.

Lemma bind_returns {A B : Type} (m : M A) (f : A -> M B) (b : B)
    (evs : list event) :
  bind m f = (Ok b, evs) ->
  exists a evs0 evs1,
    m = (Ok a, evs0) /\ f a = (Ok b, evs1) /\ evs = evs0 ++ evs1.
Proof.
  destruct m as [[a | e] evs0]; simpl; [| discriminate].
  destruct (f a) as [r evs1] eqn:F. intros E. inversion E. subst.
  exists a, evs0, evs1. auto.
Qed.

Lemma handler_returns_empty (e : string) (tests : TestFiles) (evs : list event) :
  (error ("Failed to parse cypress tests: " ++ e) ;;; ret emptyTestFiles)
  = (Ok tests, evs) ->
  tests = emptyTestFiles.
Proof. simpl. intros E. inversion E. reflexivity. Qed.

Lemma legacy_component_absent (workingDirectory : string)
    (cypressConfig : Cypress9ConfigParser.CypressConfig) (evs0 evs : list event)
    (tests : TestFiles) :
  Cypress9ConfigParser.loadConfig host workingDirectory = (Ok cypressConfig, evs0) ->
  Cypress9ConfigParser.componentFolder cypressConfig = None ->
  Cypress9ConfigParser.parseTests host workingDirectory = (Ok tests, evs) ->
  componentTests tests = None \/ tests = emptyTestFiles.
Proof.
  intros L N P. unfold Cypress9ConfigParser.parseTests in P.
  apply try_catch_cases in P. destruct P as [P | (e & e0 & e1 & _ & H & _)].
  - left. rewrite L in P.
    apply bind_returns in P. destruct P as (c & a0 & a1 & C & P & _).
    inversion C. subst c. clear C.
    apply bind_returns in P. destruct P as (i & b0 & b1 & _ & P & _).
    unfold Cypress9ConfigParser.componentFolder_set in P. rewrite N in P.
    rewrite bind_ret in P. inversion P. reflexivity.
  - right. apply handler_returns_empty in H. exact H.
Qed.

Lemma modern_component_present
    (loadConfig : string -> M CypressConfigParser.CypressConfig)
    (workingDirectory : string) (evs : list event) (tests : TestFiles) :
  CypressConfigParser.parseTests host loadConfig workingDirectory = (Ok tests, evs) ->
  exists files, componentTests tests = Some files.
Proof.
  intros P. unfold CypressConfigParser.parseTests in P.
  apply try_catch_cases in P. destruct P as [P | (e & e0 & e1 & _ & H & _)].
  - apply bind_returns in P. destruct P as (c & a0 & a1 & _ & P & _).
    apply bind_returns in P. destruct P as (i & b0 & b1 & _ & P & _).
    apply bind_returns in P. destruct P as (files & c0 & c1 & _ & P & _).
    inversion P. exists files. reflexivity.
  - apply handler_returns_empty in H. subst tests. exists []. reflexivity.
Qed.

Lemma report_failures (config : Config) (tests : TestFiles) :
  failures (report config tests) = [] -> noTests tests = false.
Proof.
  unfold report. destruct (noTests tests); [discriminate | reflexivity].
Qed.

End ComponentCategory.

(** C6: a successful run on a legacy [cypress.json] without
    [componentFolder] sets [integration-tests] and does not set
    [component-tests] at all; a successful run on a modern config always
    sets [component-tests], possibly to the empty array. *)
Theorem component_output_presence (host : Host) (config : Config) :
  (forall cypressConfig evs,
     fst (parserFactory host config) = Ok (Some Cypress9ConfigParser_) ->
     Cypress9ConfigParser.loadConfig host
       (getWorkingDirectory host (workingDirectory config))
     = (Ok cypressConfig, evs) ->
     Cypress9ConfigParser.componentFolder cypressConfig = None ->
     failures (snd (parse host config)) = [] ->
     output_names (snd (parse host config)) = ["integration-tests"])
  /\ (forall parser,
        fst (parserFactory host config) = Ok (Some parser) ->
        parser <> Cypress9ConfigParser_ ->
        failures (snd (parse host config)) = [] ->
        exists integration component,
          outputs (snd (parse host config))
          = [("integration-tests", integration); ("component-tests", component)]).
Proof.
  split.
  - intros cypressConfig evs F L N Success.
    destruct (parserFactory host config) as [r evs0] eqn:E0. simpl in F. subst r.
    destruct (parseTests_returns host Cypress9ConfigParser_ config)
      as (tests & evs1 & E1).
    destruct (parse_selected_results host _ _ _ _ _ E0 E1) as [Hf Ho].
    unfold output_names. rewrite Ho. rewrite Hf in Success.
    apply report_failures in Success. unfold report. rewrite Success.
    destruct (legacy_component_absent host _ _ _ _ _ L N E1) as [-> | ->].
    + reflexivity.
    + discriminate Success.
  - intros parser F Modern Success.
    destruct (parserFactory host config) as [r evs0] eqn:E0. simpl in F. subst r.
    destruct (parseTests_returns host parser config) as (tests & evs1 & E1).
    destruct (parse_selected_results host _ _ _ _ _ E0 E1) as [Hf Ho].
    rewrite Ho. rewrite Hf in Success.
    apply report_failures in Success. unfold report. rewrite Success.
    assert (C : exists files, componentTests tests = Some files).
    { destruct parser; [| | contradiction Modern; reflexivity];
        eapply modern_component_present; exact E1. }
    destruct C as (files & ->). simpl. eauto.
Qed.

Lemma component_output_presence_witness :
  output_names (snd (parse Sample.legacy_host (Sample.config JS.NaN)))
  = ["integration-tests"]
  /\ exists integration component,
       outputs (snd (parse Sample.modern_host (Sample.config JS.NaN)))
       = [("integration-tests", integration); ("component-tests", component)].
Proof.
  split.
  - destruct (component_output_presence Sample.legacy_host (Sample.config JS.NaN))
      as [Legacy _].
    apply (Legacy (Cypress9ConfigParser.merge Sample.empty_raw9) []);
      reflexivity.
  - destruct (component_output_presence Sample.modern_host (Sample.config JS.NaN))
      as [_ Modern].
    apply (Modern CypressJSConfigParser);
      [reflexivity | discriminate | reflexivity].
Defined.

(** ** Discovery rules *)

Section Rules.
Variable host : Host.

Lemma legacy_loadConfig_merged (workingDirectory : string)
    (config : Cypress9ConfigParser.CypressConfig) (evs : list event) :
  Cypress9ConfigParser.loadConfig host workingDirectory = (Ok config, evs) ->
  exists raw, config = Cypress9ConfigParser.merge raw.
Proof.
  unfold Cypress9ConfigParser.loadConfig. intros L.
  apply bind_returns in L. destruct L as (p & e0 & e1 & _ & L & _).
  apply bind_returns in L. destruct L as (raw & e2 & e3 & _ & L & _).
  inversion L. exists raw. reflexivity.
Qed.

Lemma legacy_rules_include (raw : RawCypress9) (rule : DiscoveryRule) :
  In rule (legacy_rules (Cypress9ConfigParser.merge raw)) ->
  includePatterns rule
  = match raw_testFiles raw with
    | Some patterns => filePatterns_of patterns
    | None => ["**/*.*"]
    end.
Proof.
  unfold legacy_rules. intros [<- | H].
  - simpl. destruct (raw_testFiles raw); reflexivity.
  - destruct (Cypress9ConfigParser.componentFolder_set _); [| destruct H].
    destruct H as [<- | []]. simpl. destruct (raw_testFiles raw); reflexivity.
Qed.

Lemma legacy_rules_exclude (raw : RawCypress9) (rule : DiscoveryRule) :
  In rule (legacy_rules (Cypress9ConfigParser.merge raw)) ->
  raw_ignoreTestFiles raw = None ->
  excludePatterns rule = [].
Proof.
  unfold legacy_rules. intros H N.
  destruct H as [<- | H].
  - simpl. rewrite N. reflexivity.
  - destruct (Cypress9ConfigParser.componentFolder_set _); [| destruct H].
    destruct H as [<- | []]. simpl. rewrite N. reflexivity.
Qed.

Lemma specPattern_empty_iff (given : option SpecPattern) (default : string) :
  match given with
  | Some (Single s) => [s]
  | Some (Many l) => l
  | None => [default]
  end = []
  <-> given = Some (Many []).
Proof.
  destruct given as [[s | l] |]; split; intros H; try discriminate.
  - subst l. reflexivity.
  - inversion H. reflexivity.
Qed.

End Rules.

(** C9 as stated fails: a [cypress.json] with [testFiles: []] is
    accepted and its integration rule has no include pattern. *)
Lemma legacy_empty_includePatterns :
  ~ (forall host workingDirectory config evs,
       Cypress9ConfigParser.loadConfig host workingDirectory = (Ok config, evs) ->
       forall rule, In rule (legacy_rules config) -> includePatterns rule <> []).
Proof.
  intros H.
  apply (H Sample.empty_patterns_host "/repo" _ [] eq_refl _ (or_introl eq_refl)).
  reflexivity.
Qed.

Example modern_empty_includePatterns :
  CypressConfigParser.e2eSpecPattern_of
     {| raw_e2e := Some {| raw_specPattern := Some (Many []);
                           raw_excludeSpecPattern := None |};
        raw_component := None |}
  = [].
Proof. reflexivity. Qed.

(** C9, amended: for every configuration an adapter accepts, a discovery
    rule's [includePatterns] is empty exactly when the configuration
    gives the empty list for the include field ([testFiles] in the
    legacy schema, the category's [specPattern] in the modern one); an
    absent field, a single string and a non-empty list all give a
    non-empty [includePatterns].  [excludePatterns] may be empty: a
    legacy configuration without [ignoreTestFiles] has none. *)
Theorem includePatterns_empty_iff (host : Host) :
  (forall workingDirectory config evs,
     Cypress9ConfigParser.loadConfig host workingDirectory = (Ok config, evs) ->
     exists raw,
       config = Cypress9ConfigParser.merge raw
       /\ forall rule, In rule (legacy_rules config) ->
            (includePatterns rule = [] <-> raw_testFiles raw = Some (Many []))
            /\ (raw_ignoreTestFiles raw = None -> excludePatterns rule = []))
  /\ (forall p rawConfig,
        require host (path_resolve host p) = Ok rawConfig ->
        exists config,
          CypressConfigParser.processConfig host (Some p) = (Ok config, [])
          /\ (includePatterns (modern_rule (CypressConfigParser.e2e config)) = []
              <-> section_specPattern
                    (raw_e2e (CypressConfigParser.unwrap rawConfig))
                  = Some (Many []))
          /\ (includePatterns (modern_rule (CypressConfigParser.component config)) = []
              <-> section_specPattern
                    (raw_component (CypressConfigParser.unwrap rawConfig))
                  = Some (Many []))).
Proof.
  split.
  - intros wd config evs L.
    destruct (legacy_loadConfig_merged host _ _ _ L) as (raw & ->).
    exists raw. split; [reflexivity |].
    intros rule Hrule. split.
    + rewrite (legacy_rules_include raw rule Hrule).
      destruct (raw_testFiles raw) as [[s | l] |]; split; intros H;
        try discriminate.
      * simpl in H. subst l. reflexivity.
      * inversion H. reflexivity.
    + apply legacy_rules_exclude. exact Hrule.
  - intros p rawConfig R. eexists.
    split; [apply processConfig_loaded; exact R |].
    cbn [modern_rule discoveryRule includePatterns filePatterns_of
         CypressConfigParser.e2e CypressConfigParser.component
         CypressConfigParser.specPattern].
    unfold CypressConfigParser.e2eSpecPattern_of,
      CypressConfigParser.componentSpecPattern_of, section_specPattern.
    split.
    + destruct (raw_e2e (CypressConfigParser.unwrap rawConfig)) as [section |].
      * apply specPattern_empty_iff.
      * split; discriminate.
    + destruct (raw_component (CypressConfigParser.unwrap rawConfig)) as [section |].
      * apply specPattern_empty_iff.
      * split; discriminate.
Qed.

Lemma includePatterns_empty_iff_witness :
  exists raw,
    Cypress9ConfigParser.merge Sample.empty_raw9 = Cypress9ConfigParser.merge raw
    /\ forall rule,
         In rule (legacy_rules (Cypress9ConfigParser.merge Sample.empty_raw9)) ->
         (includePatterns rule = [] <-> raw_testFiles raw = Some (Many []))
         /\ (raw_ignoreTestFiles raw = None -> excludePatterns rule = []).
Proof.
  destruct (includePatterns_empty_iff Sample.legacy_host) as [Legacy _].
  apply (Legacy "/repo" (Cypress9ConfigParser.merge Sample.empty_raw9) []).
  reflexivity.
Defined.

(** * Further properties *)

(** ** Grouping for every count *)

Section GroupingAnyCount.

Lemma Qeq_bool_pos (q : Q) : (0 < q)%Q -> Qeq_bool q 0 = false.
Proof.
  intros Hq. destruct (Qeq_bool q 0) eqn:E; [| reflexivity].
  apply Qeq_bool_iff in E. rewrite E in Hq. exfalso. exact (Qlt_irrefl 0 Hq).
Qed.

Lemma Qle_bool_pos (q : Q) : (0 < q)%Q -> Qle_bool q 0 = false.
Proof.
  intros Hq. destruct (Qle_bool q 0) eqn:E; [| reflexivity].
  apply Qle_bool_iff in E. exfalso. exact (Qlt_not_le 0 q Hq E).
Qed.

Lemma Qceiling_nonneg (x : Q) : (0 <= x)%Q -> (0 <= Qceiling x)%Z.
Proof.
  intros Hx. rewrite Zle_Qle.
  apply Qle_trans with x; [exact Hx | apply Qle_ceiling].
Qed.

Lemma Qceiling_pos (x : Q) : (0 < x)%Q -> (0 < Qceiling x)%Z.
Proof.
  intros Hx. rewrite Zlt_Qlt.
  apply Qlt_le_trans with x; [exact Hx | apply Qle_ceiling].
Qed.

Lemma quotient_nonneg (len : nat) (q : Q) :
  (0 < q)%Q -> (0 <= inject_Z (Z.of_nat len) / q)%Q.
Proof.
  intros Hq. apply Qle_shift_div_l; [exact Hq |].
  rewrite Qmult_0_l. change 0%Q with (inject_Z 0). rewrite <- Zle_Qle. lia.
Qed.

Lemma quotient_pos (len : nat) (q : Q) :
  0 < len -> (0 < q)%Q -> (0 < inject_Z (Z.of_nat len) / q)%Q.
Proof.
  intros Hl Hq. apply Qlt_shift_div_l; [exact Hq |].
  rewrite Qmult_0_l. change 0%Q with (inject_Z 0). rewrite <- Zlt_Qlt. lia.
Qed.

Lemma chunk_size_pos (len : nat) (q : Q) :
  0 < len -> (0 < q)%Q -> 0 < chunk_size len q.
Proof.
  intros Hl Hq. unfold chunk_size.
  pose proof (Qceiling_pos _ (quotient_pos len q Hl Hq)). lia.
Qed.

Lemma Math_ceil_div_Q (len : nat) (q : Q) :
  (0 < q)%Q ->
  JS.Math_ceil (JS.div (JS.of_nat len) (JS.Num q)) = JS.of_nat (chunk_size len q).
Proof.
  intros Hq. unfold JS.of_nat at 1. unfold JS.div.
  rewrite (Qeq_bool_pos q Hq). unfold JS.Math_ceil, JS.of_nat, chunk_size.
  rewrite Z2Nat.id by (apply Qceiling_nonneg, quotient_nonneg; exact Hq).
  reflexivity.
Qed.

Lemma createTestGroups_positive (q : Q) (tests : list string) :
  (0 < q)%Q ->
  createTestGroups (JS.Num q) tests
  = JS.dense (List.map (JS.join ",") (chunks (chunk_size (length tests) q) tests)).
Proof.
  intros Hq. unfold createTestGroups.
  cbn [JS.isNaN JS.le_zero orb]. rewrite (Qle_bool_pos q Hq).
  rewrite Math_ceil_div_Q by exact Hq.
  rewrite <- map_dense. f_equal.
  destruct tests as [| t tests].
  - rewrite chunks_nil. reflexivity.
  - unfold JS.reduce.
    pose proof (chunk_size_pos (length (t :: tests)) q ltac:(simpl; lia) Hq) as Hcs.
    pose proof (reduce_from_chunks _ (t :: tests) [] Hcs) as R.
    rewrite chunks_nil in R. exact R.
Qed.

Lemma in_chunks_nonempty (cs : nat) (l g : list string) :
  0 < cs -> In g (chunks cs l) -> g <> [].
Proof.
  intros Hcs Hin. unfold chunks in Hin. apply in_map_iff in Hin.
  destruct Hin as (i & <- & Hi). apply in_seq in Hi.
  pose proof (ceil_div_pred_mul_lt (length l) cs i Hcs ltac:(lia)) as Hlt.
  intros E. apply (f_equal (@length string)) in E.
  rewrite length_chunk_at in E. change (length (@nil string)) with 0 in E. lia.
Qed.

Lemma group_step_zero (groups : JS.array (list string)) (item : string)
    (index : nat) :
  group_step (JS.Num (inject_Z 0)) groups item index = groups.
Proof.
  unfold group_step, JS.of_nat, JS.div.
  change (Qeq_bool (inject_Z 0) 0) with true. cbv iota.
  destruct (Qeq_bool (inject_Z (Z.of_nat index)) 0); [reflexivity |].
  destruct (JS.sign_nonneg (inject_Z (Z.of_nat index))); reflexivity.
Qed.

Lemma reduce_from_zero (tests : list string) (index : nat)
    (groups : JS.array (list string)) :
  JS.reduce_from (group_step (JS.Num (inject_Z 0))) tests index groups = groups.
Proof.
  revert index groups. induction tests as [| t tests IH]; intros index groups.
  - reflexivity.
  - cbn [JS.reduce_from]. rewrite group_step_zero. apply IH.
Qed.

Lemma join_singleton (sep t : string) : JS.join sep [t] = t.
Proof. reflexivity. Qed.

Lemma concat_singletons (l : list string) : concat (List.map (fun t => [t]) l) = l.
Proof. induction l as [| t l IH]; [reflexivity |]. simpl. rewrite IH. reflexivity. Qed.

Lemma createTestGroups_guard (count : JS.number) (tests : list string) :
  JS.isNaN count || JS.le_zero count = true ->
  createTestGroups count tests = JS.dense tests.
Proof. intros H. unfold createTestGroups. rewrite H. reflexivity. Qed.

Lemma ceil_div_1_r (n : nat) : ceil_div n 1 = n.
Proof. unfold ceil_div. rewrite Nat.div_1_r. lia. Qed.

Lemma chunks_one (l : list string) : chunks 1 l = List.map (fun t => [t]) l.
Proof.
  unfold chunks. rewrite ceil_div_1_r.
  induction l as [| t l IH]; [reflexivity |].
  cbn [length seq List.map]. rewrite <- seq_shift, map_map.
  f_equal. rewrite <- IH.
  apply map_ext. intros i. unfold chunk_at. simpl. reflexivity.
Qed.

Lemma chunks_all (l : list string) : l <> [] -> chunks (length l) l = [l].
Proof.
  intros Hl. unfold chunks.
  assert (0 < length l) by (destruct l; [contradiction Hl; reflexivity | simpl; lia]).
  replace (ceil_div (length l) (length l)) with 1.
  - simpl. unfold chunk_at. simpl. rewrite firstn_all. reflexivity.
  - unfold ceil_div. apply Nat.div_unique with (r := length l - 1); lia.
Qed.

Lemma ceil_div_small (n c : nat) : 0 < n -> n <= c -> ceil_div n c = 1.
Proof.
  intros Hn Hc. unfold ceil_div. symmetry.
  apply Nat.div_unique with (r := n - 1); lia.
Qed.

End GroupingAnyCount.

(** A count of [Infinity] passes the guard and, for every list of
    tests, yields the empty array: every item is attached to a named
    property of the accumulator, which [map] never visits. *)
Theorem createTestGroups_infinite_count (tests : list string) :
  createTestGroups JS.PosInfinity tests = [].
Proof.
  unfold createTestGroups. cbn [JS.isNaN JS.le_zero orb JS.div JS.of_nat JS.Math_ceil].
  change (Qceiling 0) with 0%Z.
  unfold JS.reduce. rewrite reduce_from_zero. reflexivity.
Qed.



(** With an integer count of at least the number of tests every test is
    a group of its own, so the result is the ungrouped list; with a
    count of one all tests form a single group. *)
Theorem createTestGroups_extreme_counts (count : nat) (tests : list string) :
  tests <> [] ->
  (length tests <= count ->
     createTestGroups (JS.of_nat count) tests = JS.dense tests)
  /\ createTestGroups (JS.of_nat 1) tests = [Some (JS.join "," tests)].
Proof.
  intros Hne.
  assert (Hlen : 0 < length tests)
    by (destruct tests; [contradiction Hne; reflexivity | simpl; lia]).
  split.
  - intros Hc. rewrite createTestGroups_chunks by lia.
    rewrite ceil_div_small by lia. rewrite chunks_one, map_map.
    f_equal. apply map_id.
  - rewrite createTestGroups_chunks by lia.
    rewrite ceil_div_1_r, chunks_all by exact Hne. reflexivity.
Qed.

Lemma createTestGroups_extreme_counts_witness :
  createTestGroups (JS.of_nat 7) ["p1"; "p2"; "p3"]
  = [Some "p1"; Some "p2"; Some "p3"]
  /\ createTestGroups (JS.of_nat 1) ["p1"; "p2"; "p3"] = [Some "p1,p2,p3"].
Proof.
  destruct (createTestGroups_extreme_counts 7 ["p1"; "p2"; "p3"] ltac:(discriminate))
    as [Many_ One].
  split; [apply Many_; simpl; lia | exact One].
Defined.

(** ** Listing and globbing *)

Section Listing.

Lemma node_nested_ind (P : node -> Prop) :
  P File -> P Other -> (forall e, P (Unreadable e)) ->
  (forall entries, Forall (fun entry => P (snd entry)) entries -> P (Dir entries)) ->
  forall n, P n.
Proof.
  intros HF HO HU HD. fix IH 1. intros [| | entries | e].
  - exact HF.
  - exact HO.
  - apply HD. induction entries as [| [name n] rest IHrest].
    + constructor.
    + constructor; [apply IH | exact IHrest].
  - apply HU.
Qed.

Lemma listFiles_prune_eq (n : node) :
  forall rel, listFiles rel (prune n) = listFiles rel n.
Proof.
  induction n as [| | e | entries IH] using node_nested_ind; intros rel;
    try reflexivity.
  cbn [prune listFiles].
  induction entries as [| [name entry] rest IHrest]; [reflexivity |].
  inversion IH as [| ? ? Hentry Hrest]; subst. cbn [snd] in Hentry.
  specialize (IHrest Hrest).
  destruct entry as [| | sub | e].
  - rewrite IHrest. reflexivity.
  - exact IHrest.
  - rewrite <- (Hentry (entry_rel rel name)). cbn [prune]. rewrite IHrest.
    reflexivity.
  - rewrite IHrest. reflexivity.
Qed.

Lemma listFiles_readable_iff (n : node) :
  forall rel,
    (readable n = true <-> exists files, listFiles rel n = Ok files)
    /\ forall files, listFiles rel n = Ok files -> length files = count_files n.
Proof.
  induction n as [| | e | entries IH] using node_nested_ind; intros rel;
    try (split; [split; [discriminate | intros (files & E); discriminate E]
               | intros files E; discriminate E]).
  cbn [readable listFiles count_files].
  induction entries as [| [name entry] rest IHrest].
  - split; [split; eauto | intros files E; inversion E; reflexivity].
  - inversion IH as [| ? ? Hentry Hrest]; subst. cbn [snd] in Hentry.
    specialize (IHrest Hrest). destruct IHrest as [[R1 R2] RC].
    destruct entry as [| | sub | e].
    + split; [split |].
      * intros H. destruct (R1 H) as (files & ->). eauto.
      * intros (files & E).
        match type of E with
        | match ?x with _ => _ end = _ => destruct x eqn:Er; [| discriminate]
        end.
        apply R2. eauto.
      * intros files E.
        match type of E with
        | match ?x with _ => _ end = _ => destruct x eqn:Er; [| discriminate]
        end.
        inversion E. simpl. f_equal. apply RC. reflexivity.
    + split; [split; assumption | exact RC].
    + destruct (Hentry (entry_rel rel name)) as [[S1 S2] SC].
      split; [split |].
      * intros H. apply andb_true_iff in H. destruct H as [Hs Hr].
        destruct (S1 Hs) as (sf & ->). destruct (R1 Hr) as (rf & ->). eauto.
      * intros (files & E).
        destruct (listFiles (entry_rel rel name) (Dir sub)) eqn:Es; [| discriminate].
        match type of E with
        | match ?x with _ => _ end = _ => destruct x eqn:Er; [| discriminate]
        end.
        apply andb_true_iff. split; [apply S2 | apply R2]; eauto.
      * intros files E.
        destruct (listFiles (entry_rel rel name) (Dir sub)) eqn:Es; [| discriminate].
        match type of E with
        | match ?x with _ => _ end = _ => destruct x eqn:Er; [| discriminate]
        end.
        inversion E. rewrite length_app. f_equal; [apply SC | apply RC]; reflexivity.
    + split; [split |].
      * cbn [readable andb]. discriminate.
      * cbn [listFiles]. intros (files & E). discriminate E.
      * cbn [listFiles]. intros files E. discriminate E.
Qed.

End Listing.

(** Entries that are neither regular files nor directories (symbolic
    links among them) are never listed and never followed: listing a
    tree gives the same result as listing it with those entries
    removed. *)
Theorem listFiles_ignores_other_entries (rel : string) (n : node) :
  listFiles rel (prune n) = listFiles rel n
  /\ forall name, listFiles rel (Dir [(name, Other)]) = Ok [].
Proof.
  split; [apply listFiles_prune_eq | reflexivity].
Qed.

(** Listing succeeds exactly when the root is a directory and every
    directory below it can be read, and then returns one path for each
    regular file of the tree; a single unreadable directory anywhere
    makes the whole listing raise. *)
Theorem listFiles_succeeds_iff_readable (rel : string) (n : node) :
  (readable n = true <-> exists files, listFiles rel n = Ok files)
  /\ (forall files, listFiles rel n = Ok files -> length files = count_files n).
Proof. apply listFiles_readable_iff. Qed.

Lemma listFiles_succeeds_iff_readable_witness :
  exists files,
    listFiles ""
      (Dir [("cypress.json", File);
            ("cypress", Dir [("integration", Dir Sample.specs)])])
    = Ok files
    /\ length files = 6.
Proof.
  destruct (listFiles_succeeds_iff_readable ""
              (Dir [("cypress.json", File);
                    ("cypress", Dir [("integration", Dir Sample.specs)])]))
    as [[Readable _] Count].
  destruct (Readable eq_refl) as (files & E).
  exists files. split; [exact E |].
  rewrite (Count files E). reflexivity.
Defined.

Section Globbing.
Variable host : Host.

Lemma filter_filter_andb {A : Type} (P Q : A -> bool) (l : list A) :
  filter P (filter Q l) = filter (fun x => Q x && P x) l.
Proof.
  induction l as [| x l IH]; [reflexivity |].
  simpl. destruct (Q x); simpl; [destruct (P x) |]; rewrite IH; reflexivity.
Qed.

Lemma fold_filter_forallb (g : string -> string -> bool) (ps l : list string) :
  fold_left (fun files p => filter (g p) files) ps l
  = filter (fun f => forallb (fun p => g p f) ps) l.
Proof.
  revert l. induction ps as [| q rest IH]; intros l.
  - simpl. symmetry. apply forallb_filter_id. apply forallb_forall. reflexivity.
  - simpl. rewrite IH, filter_filter_andb. reflexivity.
Qed.

Lemma glob_listed (root : string) (pattern ignorePattern : list string)
    (dir : node) (all : list string) :
  fs_node host root = Some dir ->
  listFiles "" dir = Ok all ->
  glob host root pattern ignorePattern
  = (Ok (filter (selected host pattern ignorePattern) all), []).
Proof.
  intros Hroot Hall. unfold glob. rewrite Hroot, Hall, bind_lift_ok.
  rewrite (fold_filter_forallb (fun p f => minimatch host f ("!" ++ p))).
  rewrite filter_filter_andb. reflexivity.
Qed.

Lemma glob_raises (root : string) (pattern ignorePattern : list string)
    (dir : node) (e : string) :
  fs_node host root = Some dir ->
  listFiles "" dir = Throw e ->
  glob host root pattern ignorePattern = (Throw e, []).
Proof. intros Hroot He. unfold glob. rewrite Hroot, He. reflexivity. Qed.

End Globbing.

(** [glob] on an existing root returns, in listing order, exactly the
    listed files that some include pattern matches and that the negation
    of every ignore pattern accepts; with no include pattern it returns
    nothing; and it raises exactly what the listing raises. *)
Theorem glob_selects_listed_files (host : Host) (root : string)
    (pattern ignorePattern : list string) (dir : node) :
  fs_node host root = Some dir ->
  (forall all,
     listFiles "" dir = Ok all ->
     glob host root pattern ignorePattern
     = (Ok (filter (selected host pattern ignorePattern) all), [])
     /\ glob host root [] ignorePattern = (Ok [], []))
  /\ (forall e,
        listFiles "" dir = Throw e ->
        glob host root pattern ignorePattern = (Throw e, [])).
Proof.
  intros Hroot. split.
  - intros all Hall. split; [apply (glob_listed host _ _ _ _ _ Hroot Hall) |].
    rewrite (glob_listed host _ [] ignorePattern _ _ Hroot Hall).
    f_equal. f_equal. clear Hall. induction all as [| f all IH]; [reflexivity |].
    simpl. exact IH.
  - intros e He. apply (glob_raises host _ _ _ _ _ Hroot He).
Qed.

Lemma glob_selects_listed_files_witness :
  glob Sample.modern_host "/repo" ["a.cy.ts"; "b.cy.ts"] ["a.cy.ts"]
  = (Ok ["b.cy.ts"], []).
Proof.
  destruct (glob_selects_listed_files Sample.modern_host "/repo"
              ["a.cy.ts"; "b.cy.ts"] ["a.cy.ts"] _ eq_refl) as [Listed _].
  destruct (Listed ["cypress.config.js"; "a.cy.ts"; "b.cy.ts"] eq_refl) as [G _].
  exact G.
Defined.

(** ** Runs of [parse] *)

Section Runs.
Variable host : Host.

Lemma parse_factory_raises (config : Config) (e : string) (evs0 : list event) :
  parserFactory host config = (Throw e, evs0) ->
  parse host config
  = (Ok tt, evs0 ++ [SetFailed ("Action failed with error: " ++ e)]).
Proof.
  intros F. unfold parse, parse_body. rewrite F, bind_throw, try_catch_throw.
  reflexivity.
Qed.

Lemma report_fails_or_reports (messages : list string) (config : Config)
    (tests : TestFiles) :
  In "No tests found" messages ->
  fails_or_reports messages (report config tests).
Proof.
  intros Hin. unfold report, fails_or_reports.
  destruct (noTests tests).
  - left. exists "No tests found". simpl. auto.
  - right. split; [destruct (componentTests tests); reflexivity |].
    eexists. destruct (componentTests tests) as [c |]; simpl.
    + right. eexists. reflexivity.
    + left. reflexivity.
Qed.

Lemma fails_or_reports_ext (messages : list string) (evs evs' : list event) :
  failures evs = failures evs' -> outputs evs = outputs evs' ->
  fails_or_reports messages evs' -> fails_or_reports messages evs.
Proof. unfold fails_or_reports. intros -> ->. exact (fun H => H). Qed.

Lemma parserFactory_selected (config : Config) (c : ParserClass) :
  fst (parserFactory host config) = Ok (Some c) ->
  fst (hasConfigFile host (VALID_CONFIG_FILE_NAMES c) (workingDirectory config))
  = Ok true.
Proof.
  unfold parserFactory.
  destruct (hasConfigFile host (VALID_CONFIG_FILE_NAMES CypressTSConfigParser) _)
    as [[[|] | e] e0] eqn:Ts; rewrite ?bind_ok, ?bind_throw; cbn [fst ret];
    try discriminate.
  { intros E. inversion E. subst c. rewrite Ts. reflexivity. }
  destruct (hasConfigFile host (VALID_CONFIG_FILE_NAMES CypressJSConfigParser) _)
    as [[[|] | e] e1] eqn:Js; rewrite ?bind_ok, ?bind_throw; cbn [fst ret];
    try discriminate.
  { intros E. inversion E. subst c. rewrite Js. reflexivity. }
  destruct (hasConfigFile host (VALID_CONFIG_FILE_NAMES Cypress9ConfigParser_) _)
    as [[[|] | e] e2] eqn:V9; rewrite ?bind_ok, ?bind_throw; cbn [fst ret];
    try discriminate.
  intros E. inversion E. subst c. rewrite V9. reflexivity.
Qed.

Lemma getWorkingDirectory_idempotent (workingDirectory : string) :
  getWorkingDirectory host (getWorkingDirectory host workingDirectory)
  = getWorkingDirectory host workingDirectory.
Proof.
  unfold getWorkingDirectory.
  destruct (workingDirectory =? "")%string eqn:E; [| rewrite E; reflexivity].
  destruct (process_cwd host =? "")%string; reflexivity.
Qed.

End Runs.

(** [parse] never raises, and a run ends in exactly one of two ways: one
    [setFailed] and no output, the message being one of the two fixed
    texts or "Action failed with error: ..."; or no [setFailed],
    [integration-tests] set first and [component-tests] possibly set
    after it. *)
Theorem parse_fails_or_reports (host : Host) (config : Config) :
  fst (parse host config) = Ok tt
  /\ fails_or_reports
       ["No supported Cypress config file found."; "No tests found"]
       (snd (parse host config)).
Proof.
  pose proof (silent_parserFactory host config) as S0. unfold silent in S0.
  destruct (parserFactory host config) as [[[parser |] | e] evs0] eqn:E0;
    cbn [snd] in S0.
  - destruct (parseTests_returns host parser config) as (tests & evs1 & E1).
    split; [rewrite (parse_selected host _ _ _ _ _ E0 E1); reflexivity |].
    destruct (parse_selected_results host _ _ _ _ _ E0 E1) as [Hf Ho].
    apply (fails_or_reports_ext _ _ (report config tests) Hf Ho).
    apply report_fails_or_reports. simpl. auto.
  - rewrite (parse_not_selected host _ _ E0). split; [reflexivity |].
    left. exists "No supported Cypress config file found.". cbn [snd].
    rewrite failures_app, outputs_app.
    rewrite (silent_failures _ S0), (silent_outputs _ S0). simpl. auto.
  - rewrite (parse_factory_raises host _ _ _ E0). split; [reflexivity |].
    left. exists ("Action failed with error: " ++ e)%string. cbn [snd].
    rewrite failures_app, outputs_app.
    rewrite (silent_failures _ S0), (silent_outputs _ S0).
    split; [reflexivity |]. split; [| reflexivity].
    right. exists e. reflexivity.
Qed.

(** The config locator lists the whole working directory before any
    parser's [try]: when that listing raises [e] (an unreadable
    directory anywhere below, or a working directory that is a file),
    the run fails with "Action failed with error: e", logs nothing with
    [error] and sets no output. *)
Theorem parse_listing_raises (host : Host) (config : Config) (dir : node)
    (e : string) :
  fs_node host (getWorkingDirectory host (workingDirectory config)) = Some dir ->
  listFiles "" dir = Throw e ->
  parse host config = (Ok tt, [SetFailed ("Action failed with error: " ++ e)]).
Proof.
  intros Hroot He.
  assert (F : parserFactory host config = (Throw e, [])).
  { unfold parserFactory, hasConfigFile, getConfigFile.
    rewrite (glob_raises host _ _ _ _ _ Hroot He). reflexivity. }
  rewrite (parse_factory_raises host _ _ _ F). reflexivity.
Qed.

Lemma parse_listing_raises_witness :
  parse Fixture.unreadable_host (Sample.config JS.NaN)
  = (Ok tt,
     [SetFailed "Action failed with error: Error: EACCES: permission denied"]).
Proof.
  apply (parse_listing_raises Fixture.unreadable_host (Sample.config JS.NaN)
           (Dir [("cypress.json", File);
                 ("secret", Unreadable "Error: EACCES: permission denied")])
           "Error: EACCES: permission denied");
    reflexivity.
Defined.

(** The adapter [parserFactory] selects finds its config file again when
    it loads: the factory looks with the raw [working-directory] input,
    the parser with the resolved one, both list the same directory, and
    the parser's locator returns the same single file joined to the
    resolved directory. *)
Theorem selected_adapter_locates_config (host : Host) (config : Config)
    (c : ParserClass) :
  fst (parserFactory host config) = Ok (Some c) ->
  exists file evs,
    glob host (getWorkingDirectory host (workingDirectory config))
      (VALID_CONFIG_FILE_NAMES c) []
    = (Ok [file], evs)
    /\ getConfigFile host (VALID_CONFIG_FILE_NAMES c)
         (getWorkingDirectory host (workingDirectory config))
       = (Ok (Some (path_join host
                      (getWorkingDirectory host (workingDirectory config)) file)),
          evs).
Proof.
  intros F. apply parserFactory_selected in F.
  apply hasConfigFile_true_iff in F. destruct F as (file & evs & G & _).
  exists file, evs. split; [exact G |].
  unfold getConfigFile. rewrite getWorkingDirectory_idempotent, G, bind_ok.
  simpl. rewrite app_nil_r. reflexivity.
Qed.

Lemma selected_adapter_locates_config_witness :
  exists file evs,
    glob Sample.legacy_host "/repo" ["cypress.json"] [] = (Ok [file], evs)
    /\ getConfigFile Sample.legacy_host ["cypress.json"] "/repo"
       = (Ok (Some (Sample.join "/repo" file)), evs).
Proof.
  apply (selected_adapter_locates_config Sample.legacy_host (Sample.config JS.NaN)
           Cypress9ConfigParser_).
  reflexivity.
Defined.

(** ** Legacy adapter: consequences for a run *)

Section LegacyRuns.
Variable host : Host.

Lemma glob_no_pattern (root : string) (ignorePattern files : list string)
    (evs : list event) :
  glob host root [] ignorePattern = (Ok files, evs) -> files = [].
Proof.
  unfold glob. destruct (fs_node host root) as [dir |].
  - destruct (listFiles "" dir) as [all | e]; [| discriminate].
    rewrite bind_lift_ok. unfold ret. intros E. inversion E as [[Hf He]].
    rewrite (fold_filter_forallb (fun p f => minimatch host f ("!" ++ p))).
    clear. induction all as [| f all IH]; [reflexivity | exact IH].
  - unfold ret. intros E. inversion E. reflexivity.
Qed.

Lemma parseTestOfType_no_pattern (workingDirectory testFolder : string)
    (exclude : option SpecPattern) (tests : list string) (evs : list event) :
  parseTestOfType host workingDirectory testFolder (Many []) exclude
  = (Ok tests, evs) ->
  tests = [].
Proof.
  unfold parseTestOfType. intros P.
  apply bind_returns in P. destruct P as (files & e0 & e1 & G & R & _).
  apply glob_no_pattern in G. subst files. inversion R. reflexivity.
Qed.

Lemma legacy_parseTests_cases (workingDirectory : string) (tests : TestFiles)
    (evs : list event) :
  Cypress9ConfigParser.parseTests host workingDirectory = (Ok tests, evs) ->
  tests = emptyTestFiles
  \/ exists config evs0 evs1 evs2 component,
       Cypress9ConfigParser.loadConfig host workingDirectory = (Ok config, evs0)
       /\ parseTestOfType host workingDirectory
            (Cypress9ConfigParser.integrationFolder config)
            (Cypress9ConfigParser.testFiles config)
            (Cypress9ConfigParser.ignoreTestFiles config)
          = (Ok (integrationTests tests), evs1)
       /\ match Cypress9ConfigParser.componentFolder_set config with
          | Some folder =>
              parseTestOfType host workingDirectory folder
                (Cypress9ConfigParser.testFiles config)
                (Cypress9ConfigParser.ignoreTestFiles config)
              = (Ok component, evs2)
              /\ componentTests tests = Some component
          | None => componentTests tests = None
          end.
Proof.
  intros P. unfold Cypress9ConfigParser.parseTests in P.
  apply try_catch_cases in P. destruct P as [P | (e & e0 & e1 & _ & H & _)].
  - right.
    apply bind_returns in P. destruct P as (config & a0 & a1 & L & P & _).
    apply bind_returns in P. destruct P as (i & b0 & b1 & I & P & _).
    apply bind_returns in P. destruct P as (c & c0 & c1 & C & P & _).
    inversion P. subst tests. cbn [integrationTests componentTests].
    exists config, a0, b0.
    destruct (Cypress9ConfigParser.componentFolder_set config) as [folder |].
    + apply bind_returns in C. destruct C as (ct & d0 & d1 & C & R & _).
      inversion R. subst c. exists d0, ct. auto.
    + inversion C. exists [], []. auto.
  - left. apply handler_returns_empty in H. exact H.
Qed.

Lemma selected_outputs (config : Config) (parser : ParserClass) (tests : TestFiles)
    (evs : list event) :
  fst (parserFactory host config) = Ok (Some parser) ->
  parseTests host parser config = (Ok tests, evs) ->
  failures (snd (parse host config)) = failures (report config tests)
  /\ outputs (snd (parse host config)) = outputs (report config tests).
Proof.
  intros F T. destruct (parserFactory host config) as [r evs0] eqn:E0.
  simpl in F. subst r. exact (parse_selected_results host _ _ _ _ _ E0 T).
Qed.

End LegacyRuns.

(** A [cypress.json] whose [testFiles] is the empty list is accepted,
    matches nothing in either category, and the run fails with
    "No tests found". *)
Theorem legacy_empty_testFiles_no_tests (host : Host) (config : Config)
    (cypressConfig : Cypress9ConfigParser.CypressConfig) (evs : list event) :
  fst (parserFactory host config) = Ok (Some Cypress9ConfigParser_) ->
  Cypress9ConfigParser.loadConfig host
    (getWorkingDirectory host (workingDirectory config))
  = (Ok cypressConfig, evs) ->
  Cypress9ConfigParser.testFiles cypressConfig = Many [] ->
  failures (snd (parse host config)) = ["No tests found"]
  /\ outputs (snd (parse host config)) = [].
Proof.
  intros F L Empty.
  destruct (parseTests_returns host Cypress9ConfigParser_ config)
    as (tests & evs1 & T).
  destruct (selected_outputs host _ _ _ _ F T) as [-> ->].
  assert (N : noTests tests = true).
  { cbn [parseTests] in T. apply legacy_parseTests_cases in T.
    destruct T as [-> | (c & e0 & e1 & e2 & ct & L' & I & C)]; [reflexivity |].
    rewrite L in L'. inversion L'. subst c. rewrite Empty in I, C.
    apply parseTestOfType_no_pattern in I.
    apply noTests_zero_files. split; [exact I |].
    destruct (Cypress9ConfigParser.componentFolder_set cypressConfig).
    - destruct C as [C ->]. apply parseTestOfType_no_pattern in C. subst ct.
      right. reflexivity.
    - left. exact C. }
  unfold report. rewrite N. split; reflexivity.
Qed.

Lemma legacy_empty_testFiles_no_tests_witness :
  failures (snd (parse Sample.empty_patterns_host (Sample.config JS.NaN)))
  = ["No tests found"]
  /\ outputs (snd (parse Sample.empty_patterns_host (Sample.config JS.NaN))) = [].
Proof.
  apply (legacy_empty_testFiles_no_tests Sample.empty_patterns_host
           (Sample.config JS.NaN)
           (Cypress9ConfigParser.merge
              {| raw_componentFolder := None; raw_ignoreTestFiles := None;
                 raw_integrationFolder := None; raw_testFiles := Some (Many []) |})
           []); reflexivity.
Defined.

(** On a legacy configuration, [component-tests] is set only when
    [componentFolder] is a non-empty string: an absent and an empty
    [componentFolder] both leave the component category out. *)
Theorem legacy_component_output_needs_folder (host : Host) (config : Config)
    (cypressConfig : Cypress9ConfigParser.CypressConfig) (evs : list event) :
  fst (parserFactory host config) = Ok (Some Cypress9ConfigParser_) ->
  Cypress9ConfigParser.loadConfig host
    (getWorkingDirectory host (workingDirectory config))
  = (Ok cypressConfig, evs) ->
  In "component-tests" (output_names (snd (parse host config))) ->
  exists folder,
    Cypress9ConfigParser.componentFolder cypressConfig = Some folder
    /\ folder <> "".
Proof.
  intros F L Hin.
  destruct (parseTests_returns host Cypress9ConfigParser_ config)
    as (tests & evs1 & T).
  destruct (selected_outputs host _ _ _ _ F T) as [_ Ho].
  unfold output_names in Hin. rewrite Ho in Hin. clear Ho.
  cbn [parseTests] in T. apply legacy_parseTests_cases in T.
  destruct T as [-> | (c & e0 & e1 & e2 & ct & L' & I & C)].
  { simpl in Hin. destruct Hin. }
  rewrite L in L'. inversion L'. subst c.
  unfold Cypress9ConfigParser.componentFolder_set in C.
  destruct (Cypress9ConfigParser.componentFolder cypressConfig) as [folder |].
  - destruct (folder =? "")%string eqn:E.
    + exfalso. unfold report in Hin. rewrite C in Hin.
      destruct (noTests tests); simpl in Hin;
        [destruct Hin | destruct Hin as [H | []]; discriminate H].
    + exists folder. split; [reflexivity |]. apply String.eqb_neq. exact E.
  - exfalso. unfold report in Hin. rewrite C in Hin.
    destruct (noTests tests); simpl in Hin;
      [destruct Hin | destruct Hin as [H | []]; discriminate H].
Qed.

Lemma legacy_component_output_needs_folder_witness :
  exists folder,
    Cypress9ConfigParser.componentFolder
      (Cypress9ConfigParser.merge (Fixture.raw_with_component "src"))
    = Some folder
    /\ folder <> "".
Proof.
  apply (legacy_component_output_needs_folder Fixture.component_host
           (Sample.config JS.NaN)
           (Cypress9ConfigParser.merge (Fixture.raw_with_component "src")) []).
  - reflexivity.
  - reflexivity.
  - vm_compute. right. left. reflexivity.
Defined.

(** When [componentFolder] names the integration folder, the two
    categories hold the same tests. *)
Theorem legacy_same_folder_same_tests (host : Host) (workingDirectory : string)
    (cypressConfig : Cypress9ConfigParser.CypressConfig)
    (tests : TestFiles) (evs0 evs : list event) :
  Cypress9ConfigParser.loadConfig host workingDirectory = (Ok cypressConfig, evs0) ->
  Cypress9ConfigParser.componentFolder_set cypressConfig
  = Some (Cypress9ConfigParser.integrationFolder cypressConfig) ->
  Cypress9ConfigParser.parseTests host workingDirectory = (Ok tests, evs) ->
  componentTests tests = Some (integrationTests tests).
Proof.
  intros L Same T. apply legacy_parseTests_cases in T.
  destruct T as [-> | (c & e0 & e1 & e2 & ct & L' & I & C)]; [reflexivity |].
  rewrite L in L'. inversion L'. subst c. rewrite Same in C.
  destruct C as [C ->]. rewrite I in C. inversion C. reflexivity.
Qed.

Lemma legacy_same_folder_same_tests_witness :
  exists tests evs,
    Cypress9ConfigParser.parseTests Fixture.same_folder_host "/repo"
    = (Ok tests, evs)
    /\ integrationTests tests = ["cypress/integration/a.ts"]
    /\ componentTests tests = Some (integrationTests tests).
Proof.
  eexists. eexists. split; [reflexivity |]. split; [reflexivity |].
  apply (legacy_same_folder_same_tests Fixture.same_folder_host "/repo"
           (Cypress9ConfigParser.merge
              (Fixture.raw_with_component "cypress/integration"))
           _ [] []); reflexivity.
Defined.

(** ** Modern adapters: consequences for a run *)

Section ModernRuns.
Variable host : Host.

Lemma processConfig_excludes_node_modules (configFilePath : option string)
    (config : CypressConfigParser.CypressConfig) (evs : list event) :
  CypressConfigParser.processConfig host configFilePath = (Ok config, evs) ->
  In "**/node_modules/**"
    (CypressConfigParser.excludeSpecPattern (CypressConfigParser.e2e config))
  /\ In "**/node_modules/**"
       (CypressConfigParser.excludeSpecPattern (CypressConfigParser.component config)).
Proof.
  unfold CypressConfigParser.processConfig.
  destruct configFilePath as [p |]; [| discriminate].
  intros P. apply bind_returns in P. destruct P as (raw & e0 & e1 & _ & R & _).
  inversion R. subst config.
  cbn [CypressConfigParser.e2e CypressConfigParser.component
       CypressConfigParser.excludeSpecPattern].
  split.
  - unfold CypressConfigParser.e2eExcludeSpecPattern_of.
    destruct (raw_e2e (CypressConfigParser.unwrap raw)) as [section |];
      [destruct (raw_excludeSpecPattern section) as [[s | l] |] |];
      left; reflexivity.
  - rewrite componentExclude_shape. left. reflexivity.
Qed.

Lemma modern_loadConfig_processed (c : ParserClass) (workingDirectory : string)
    (config : CypressConfigParser.CypressConfig) (evs : list event) :
  match c with
  | CypressTSConfigParser =>
      CypressConfigParser.loadConfigTS host workingDirectory = (Ok config, evs)
  | CypressJSConfigParser =>
      CypressConfigParser.loadConfigJS host workingDirectory = (Ok config, evs)
  | Cypress9ConfigParser_ => False
  end ->
  exists p evs', CypressConfigParser.processConfig host p = (Ok config, evs').
Proof.
  destruct c; [| | contradiction].
  - unfold CypressConfigParser.loadConfigTS. intros L.
    apply bind_returns in L. destruct L as (p & e0 & e1 & _ & L & _).
    destruct (truthy_path p); [| discriminate].
    destruct p as [p |]; [| discriminate].
    apply bind_returns in L. destruct L as (js & e2 & e3 & _ & L & _).
    eauto.
  - unfold CypressConfigParser.loadConfigJS. intros L.
    apply bind_returns in L. destruct L as (p & e0 & e1 & _ & L & _).
    destruct (truthy_path p); [| discriminate]. eauto.
Qed.

Lemma modern_parseTests_cases
    (loadConfig : string -> M CypressConfigParser.CypressConfig)
    (workingDirectory : string) (tests : TestFiles) (evs : list event) :
  CypressConfigParser.parseTests host loadConfig workingDirectory = (Ok tests, evs) ->
  tests = emptyTestFiles
  \/ exists config evs0 evs1 evs2 component,
       loadConfig workingDirectory = (Ok config, evs0)
       /\ parseTestOfType host workingDirectory ""
            (Many (CypressConfigParser.specPattern (CypressConfigParser.e2e config)))
            (Some (Many (CypressConfigParser.excludeSpecPattern
                           (CypressConfigParser.e2e config))))
          = (Ok (integrationTests tests), evs1)
       /\ parseTestOfType host workingDirectory ""
            (Many (CypressConfigParser.specPattern
                     (CypressConfigParser.component config)))
            (Some (Many (CypressConfigParser.excludeSpecPattern
                           (CypressConfigParser.component config))))
          = (Ok component, evs2)
       /\ componentTests tests = Some component.
Proof.
  intros P. unfold CypressConfigParser.parseTests in P.
  apply try_catch_cases in P. destruct P as [P | (e & e0 & e1 & _ & H & _)].
  - right.
    apply bind_returns in P. destruct P as (config & a0 & a1 & L & P & _).
    apply bind_returns in P. destruct P as (i & b0 & b1 & I & P & _).
    apply bind_returns in P. destruct P as (c & c0 & c1 & C & P & _).
    inversion P. subst tests. exists config, a0, b0, c0, c. auto.
  - left. apply handler_returns_empty in H. exact H.
Qed.

Lemma createTestGroups_length_le (count : nat) (tests : list string) :
  0 < count -> length (createTestGroups (JS.of_nat count) tests) <= count.
Proof.
  intros Hc. rewrite createTestGroups_chunks by exact Hc.
  unfold JS.dense. rewrite !length_map, length_chunks.
  apply ceil_div_ceil_div_le. exact Hc.
Qed.

End ModernRuns.

(** With a matcher whose negated pattern rejects what the pattern
    accepts, no test a modern adapter returns, in either category, lies
    under [node_modules], whatever the configuration excludes. *)
Theorem modern_tests_outside_node_modules (host : Host) (c : ParserClass)
    (config : Config) (tests : TestFiles) (evs : list event) :
  c <> Cypress9ConfigParser_ ->
  (forall f pat, minimatch host f pat = true ->
                 minimatch host f ("!" ++ pat) = false) ->
  parseTests host c config = (Ok tests, evs) ->
  forall t,
    In t (integrationTests tests)
    \/ (exists component, componentTests tests = Some component /\ In t component) ->
    exists f, t = path_join host "" f
      /\ minimatch host f "**/node_modules/**" = false.
Proof.
  intros Modern Hneg T t Hin.
  set (wd := getWorkingDirectory host (workingDirectory config)) in *.
  assert (Cases :
    tests = emptyTestFiles
    \/ exists cfg evs1 evs2 component,
         (exists p evs', CypressConfigParser.processConfig host p = (Ok cfg, evs'))
         /\ parseTestOfType host wd ""
              (Many (CypressConfigParser.specPattern (CypressConfigParser.e2e cfg)))
              (Some (Many (CypressConfigParser.excludeSpecPattern
                             (CypressConfigParser.e2e cfg))))
            = (Ok (integrationTests tests), evs1)
         /\ parseTestOfType host wd ""
              (Many (CypressConfigParser.specPattern
                       (CypressConfigParser.component cfg)))
              (Some (Many (CypressConfigParser.excludeSpecPattern
                             (CypressConfigParser.component cfg))))
            = (Ok component, evs2)
         /\ componentTests tests = Some component).
  { destruct c; [| | contradiction Modern; reflexivity];
      cbn [parseTests] in T; apply modern_parseTests_cases in T;
      (destruct T as [E | (cfg & e0 & e1 & e2 & ct & L & I & C & CT)];
       [left; exact E |]);
      right; exists cfg, e1, e2, ct; (split; [| auto]).
    - apply (modern_loadConfig_processed host CypressTSConfigParser _ _ _ L).
    - apply (modern_loadConfig_processed host CypressJSConfigParser _ _ _ L). }
  destruct Cases as [-> | (cfg & e1 & e2 & ct & (p & e' & P) & I & C & CT)].
  { destruct Hin as [[] | (component & E & Hc)]. inversion E. subst. destruct Hc. }
  destruct (processConfig_excludes_node_modules host _ _ _ P) as [Ne2e Ncomp].
  assert (Sel : exists f, t = path_join host "" f
                  /\ minimatch host f ("!" ++ "**/node_modules/**") = true).
  { destruct Hin as [Hi | (component & E & Hc)].
    - destruct (parseTestOfType_excludes host _ _ _ _ _ _ I t Hi) as (f & -> & Hex).
      exists f. split; [reflexivity |]. apply Hex. exact Ne2e.
    - rewrite CT in E. inversion E. subst component.
      destruct (parseTestOfType_excludes host _ _ _ _ _ _ C t Hc) as (f & -> & Hex).
      exists f. split; [reflexivity |]. apply Hex. exact Ncomp. }
  destruct Sel as (f & -> & Hf). exists f. split; [reflexivity |].
  destruct (minimatch host f "**/node_modules/**") eqn:Hm; [| reflexivity].
  apply Hneg in Hm. rewrite Hf in Hm. discriminate Hm.
Qed.

Lemma modern_tests_outside_node_modules_witness :
  exists f, "b.cy.ts" = Sample.join "" f
    /\ Sample.matches f "**/node_modules/**" = false.
Proof.
  apply (modern_tests_outside_node_modules Sample.modern_host
           CypressJSConfigParser (Sample.config JS.NaN)
           {| integrationTests := ["a.cy.ts"]; componentTests := Some ["b.cy.ts"] |}
           []).
  - discriminate.
  - exact matches_negated.
  - reflexivity.
  - right. exists ["b.cy.ts"]. split; [reflexivity | left; reflexivity].
Defined.

(** With a positive integer [count-runners], no output of a run has
    more than that many entries, whichever adapter ran. *)
Theorem parse_outputs_at_most_count (host : Host) (config : Config) (count : nat) :
  countRunners config = JS.of_nat count ->
  0 < count ->
  forall name value,
    In (name, value) (outputs (snd (parse host config))) ->
    length value <= count.
Proof.
  intros Hcount Hpos name value Hin.
  pose proof (silent_parserFactory host config) as S0. unfold silent in S0.
  destruct (parserFactory host config) as [[[parser |] | e] evs0] eqn:E0;
    cbn [snd] in S0.
  - destruct (parseTests_returns host parser config) as (tests & evs1 & E1).
    destruct (parse_selected_results host _ _ _ _ _ E0 E1) as [_ Ho].
    rewrite Ho in Hin. unfold report in Hin. rewrite Hcount in Hin.
    destruct (noTests tests); [destruct Hin |].
    destruct (componentTests tests) as [component |]; simpl in Hin.
    + destruct Hin as [H | [H | []]]; inversion H;
        apply createTestGroups_length_le; exact Hpos.
    + destruct Hin as [H | []]. inversion H.
      apply createTestGroups_length_le; exact Hpos.
  - rewrite (parse_not_selected host _ _ E0) in Hin. cbn [snd] in Hin.
    rewrite outputs_app, (silent_outputs _ S0) in Hin. destruct Hin.
  - rewrite (parse_factory_raises host _ _ _ E0) in Hin. cbn [snd] in Hin.
    rewrite outputs_app, (silent_outputs _ S0) in Hin. destruct Hin.
Qed.

Lemma parse_outputs_at_most_count_witness :
  length [Some "cypress/integration/t1.ts,cypress/integration/t2.ts,cypress/integration/t3.ts";
          Some "cypress/integration/t4.ts,cypress/integration/t5.ts"] <= 2.
Proof.
  apply (parse_outputs_at_most_count Sample.legacy_host
           (Sample.config (JS.of_nat 2)) 2 eq_refl ltac:(lia)
           "integration-tests").
  vm_compute. left. reflexivity.
Defined.

(** The typed config is transpiled to a file only when every step
    succeeds: [transpileTypescriptConfig] returns a path exactly when
    the temporary directory can be made, the config can be read, the
    transpiler reports no diagnostic and the output can be written; the
    path is then that of the temporary script. *)
Theorem transpile_succeeds_iff (host : Host) (configFilePath js : string)
    (evs : list event) :
  CypressConfigParser.transpileTypescriptConfig host configFilePath = (Ok js, evs)
  <-> evs = []
      /\ mkdtemp_config host = Ok js
      /\ exists text,
           readFileSync host configFilePath = Ok text
           /\ fst (ts_transpileModule host text) = []
           /\ writeFileSync host js (snd (ts_transpileModule host text)) = Ok tt.
Proof.
  unfold CypressConfigParser.transpileTypescriptConfig. split.
  - intros T.
    destruct (mkdtemp_config host) as [tmp | e]; [| discriminate].
    rewrite bind_lift_ok in T.
    destruct (readFileSync host configFilePath) as [text | e]; [| discriminate].
    rewrite bind_lift_ok in T.
    destruct (ts_transpileModule host text) as [diagnostics out] eqn:D.
    destruct diagnostics as [| d rest]; [| discriminate].
    cbn [length Nat.ltb Nat.leb] in T.
    destruct (writeFileSync host tmp out) as [[] | e] eqn:W; [| discriminate].
    rewrite bind_lift_ok in T. inversion T. subst.
    split; [reflexivity |]. split; [reflexivity |].
    exists text. rewrite D. auto.
  - intros (-> & Tmp & text & R & D & W).
    rewrite Tmp, bind_lift_ok, R, bind_lift_ok.
    destruct (ts_transpileModule host text) as [diagnostics out].
    cbn [fst snd] in D, W. subst diagnostics.
    cbn [length Nat.ltb Nat.leb]. rewrite W, bind_lift_ok. reflexivity.
Qed.

(** ** The first parser *)

Section FirstParser.
Variable host : Host.
Variable globber : string -> bool -> outcome (list string).

Lemma silent_findCypressConfigFile :
  silent (ParsingGlob.findCypressConfigFile globber).
Proof. unfold ParsingGlob.findCypressConfigFile. silence. Qed.

Lemma silent_loadCypressConfig (configFilePath : string) :
  silent (ParsingGlob.loadCypressConfig host configFilePath).
Proof. unfold ParsingGlob.loadCypressConfig. silence. Qed.

Lemma silent_first_parseTests (config : ParsingGlob.Config)
    (cypressConfig : Cypress9ConfigParser.CypressConfig) :
  silent (ParsingGlob.parseTests host globber config cypressConfig).
Proof.
  unfold ParsingGlob.parseTests, ParsingGlob.parseTestOfType. silence.
Qed.

Lemma loadCypressConfig_returns (configFilePath : string) :
  exists r evs, ParsingGlob.loadCypressConfig host configFilePath = (Ok r, evs).
Proof.
  unfold ParsingGlob.loadCypressConfig.
  destruct (readFileSync host configFilePath) as [data | e]; simpl; eauto.
  destruct (JSON_parse host data) as [raw | e]; simpl; eauto.
Qed.

Lemma silent_events_fail (messages : list string) (evs : list event)
    (message : string) :
  Forall is_log evs ->
  In message messages \/ action_failed message ->
  fails_or_reports messages (evs ++ [SetFailed message]).
Proof.
  intros S H. left. exists message.
  rewrite failures_app, outputs_app, (silent_failures _ S), (silent_outputs _ S).
  simpl. auto.
Qed.

End FirstParser.

(** [createGlobPattern] and the later [parseTestOfType] normalise their
    patterns alike: the glob text is one line for each include pattern
    of the discovery rule, joined to the folder, followed by one line,
    prefixed with [!], for each of its exclude patterns.  An absent
    [ignoreTestFiles], an empty string and an empty list add no line. *)
Theorem createGlobPattern_lines (host : Host) (testFolder : string)
    (testFiles : SpecPattern) (ignoreTestFiles : option SpecPattern) :
  let rule := discoveryRule testFolder testFiles ignoreTestFiles in
  ParsingGlob.createGlobPattern host testFolder testFiles ignoreTestFiles
  = String.concat ParsingGlob.newline
      (List.map (fun p => path_join host testFolder p) (includePatterns rule)
       ++ List.map (fun p => ("!" ++ path_join host testFolder p)%string)
            (excludePatterns rule)).
Proof.
  unfold ParsingGlob.createGlobPattern, discoveryRule, ignoreFilePatterns_of,
    filePatterns_of.
  cbn [includePatterns excludePatterns].
  destruct ignoreTestFiles as [[s | l] |].
  - destruct (s =? "")%string; [rewrite app_nil_r |]; reflexivity.
  - reflexivity.
  - rewrite app_nil_r. reflexivity.
Qed.

(** [findCypressConfigFile] has no working "not found" branch: with no
    match it returns [undefined] and logs nothing; with one match it
    returns it; with several it logs an error and returns [null]; and
    it raises what the globber raises. *)
Lemma findCypressConfigFile_cases
    (globber : string -> bool -> outcome (list string)) :
  match globber "**/cypress.json" true with
  | Ok [] => ParsingGlob.findCypressConfigFile globber = (Ok None, [])
  | Ok [file] => ParsingGlob.findCypressConfigFile globber = (Ok (Some file), [])
  | Ok _ =>
      ParsingGlob.findCypressConfigFile globber
      = (Ok None, [LogError "Multiple Cypress config file found."])
  | Throw e => ParsingGlob.findCypressConfigFile globber = (Throw e, [])
  end.
Proof.
  unfold ParsingGlob.findCypressConfigFile.
  change ("**/" ++ ParsingGlob.CYPRESS_CONFIG_FILE_NAME)%string
    with "**/cypress.json".
  destruct (globber "**/cypress.json" true) as [[| f [| g rest]] | e];
    reflexivity.
Qed.


(** How the first [parse] fails to find its configuration.  Without a
    working directory and without any [cypress.json] match, it fails
    with "Cypress config file could not be found." and logs no error.
    With a working directory it never searches: it reads
    [cypress.json] there, and an unreadable or malformed file gives
    "Could not load Cypress config." after the logged cause. *)
Theorem first_parse_config_failures (host : Host)
    (globber : string -> bool -> outcome (list string))
    (config : ParsingGlob.Config) :
  (ParsingGlob.workingDirectory config = "" ->
   globber "**/cypress.json" true = Ok [] ->
   ParsingGlob.parse host globber config
   = (Ok tt, [SetFailed "Cypress config file could not be found."]))
  /\ (forall e,
        ParsingGlob.workingDirectory config <> "" ->
        path_join host (ParsingGlob.workingDirectory config) "cypress.json" <> "" ->
        (readFileSync host
           (path_join host (ParsingGlob.workingDirectory config) "cypress.json")
         = Throw e
         \/ exists data,
              readFileSync host
                (path_join host (ParsingGlob.workingDirectory config) "cypress.json")
              = Ok data
              /\ JSON_parse host data = Throw e) ->
        ParsingGlob.parse host globber config
        = (Ok tt,
           [LogError ("Failed to load Cypress config: " ++ e);
            SetFailed "Could not load Cypress config."])).
Proof.
  split.
  - intros Hwd Hglob.
    unfold ParsingGlob.parse, ParsingGlob.parse_body,
      ParsingGlob.findCypressConfigFile.
    rewrite Hwd.
    change ("**/" ++ ParsingGlob.CYPRESS_CONFIG_FILE_NAME)%string
      with "**/cypress.json".
    rewrite Hglob. reflexivity.
  - intros e Hwd Hpath Hload.
    unfold ParsingGlob.parse, ParsingGlob.parse_body, ParsingGlob.loadCypressConfig.
    apply String.eqb_neq in Hwd. rewrite Hwd.
    change ParsingGlob.CYPRESS_CONFIG_FILE_NAME with "cypress.json".
    rewrite bind_ret. cbn [truthy_path].
    apply String.eqb_neq in Hpath. rewrite Hpath. cbn [negb].
    destruct Hload as [R | (data & R & J)].
    + rewrite R. reflexivity.
    + rewrite R, bind_lift_ok, J. reflexivity.
Qed.

Lemma first_parse_config_failures_witness :
  ParsingGlob.parse Sample.bare_host (Fixture.globber [] ["/repo/a.ts"])
    {| ParsingGlob.workingDirectory := "";
       ParsingGlob.followSymbolicLinks := true |}
  = (Ok tt, [SetFailed "Cypress config file could not be found."])
  /\ ParsingGlob.parse Sample.malformed_host (Fixture.globber [] ["/repo/a.ts"])
       {| ParsingGlob.workingDirectory := "cwd";
          ParsingGlob.followSymbolicLinks := true |}
     = (Ok tt,
        [LogError "Failed to load Cypress config: SyntaxError: Unexpected token";
         SetFailed "Could not load Cypress config."]).
Proof.
  split.
  - destruct (first_parse_config_failures Sample.bare_host
                (Fixture.globber [] ["/repo/a.ts"])
                {| ParsingGlob.workingDirectory := "";
                   ParsingGlob.followSymbolicLinks := true |}) as [NotFound _].
    apply NotFound; reflexivity.
  - destruct (first_parse_config_failures Sample.malformed_host
                (Fixture.globber [] ["/repo/a.ts"])
                {| ParsingGlob.workingDirectory := "cwd";
                   ParsingGlob.followSymbolicLinks := true |}) as [_ NotLoaded].
    apply (NotLoaded "SyntaxError: Unexpected token").
    + discriminate.
    + discriminate.
    + right. exists "text". split; reflexivity.
Defined.

(** ** Selection and working directory *)

Section Selection.
Variable host : Host.

Lemma hasConfigFile_resolved (names : list string) (workingDirectory : string) :
  (forall a b, path_join host a b <> "") ->
  hasConfigFile host names (getWorkingDirectory host workingDirectory)
  = hasConfigFile host names workingDirectory.
Proof.
  intros Hjoin. unfold hasConfigFile, getConfigFile.
  rewrite getWorkingDirectory_idempotent.
  destruct (glob host (getWorkingDirectory host workingDirectory) names [])
    as [[results | e] evs]; [| reflexivity].
  rewrite !bind_ok.
  destruct results as [| file [| file' rest]]; try reflexivity.
  cbn [length Nat.eqb Nat.ltb Nat.leb hd ret fst snd bind truthy_path app].
  pose proof (Hjoin (getWorkingDirectory host workingDirectory) file) as H1.
  pose proof (Hjoin workingDirectory file) as H2.
  apply String.eqb_neq in H1, H2. rewrite H1, H2. reflexivity.
Qed.

Lemma glob_includes (root : string) (pattern ignorePattern files : list string)
    (evs : list event) :
  glob host root pattern ignorePattern = (Ok files, evs) ->
  forall f, In f files -> exists p, In p pattern /\ minimatch host f p = true.
Proof.
  unfold glob. destruct (fs_node host root) as [dir |].
  - destruct (listFiles "" dir) as [all | e]; [| discriminate].
    rewrite bind_lift_ok. unfold ret. intros E. inversion E as [[Hf He]]. clear E.
    intros f Hin.
    apply (fold_filter_In (fun p f => minimatch host f ("!" ++ p))) in Hin.
    destruct Hin as [Hin _]. apply filter_In in Hin. destruct Hin as [_ Hex].
    apply existsb_exists in Hex. exact Hex.
  - unfold ret. intros E. inversion E. intros f [].
Qed.

End Selection.

(** A parser class whose config file names match more than one file
    below the working directory is never selected, wherever those files
    are. *)
Theorem ambiguous_config_not_selected (host : Host) (config : Config)
    (c : ParserClass) (results : list string) (evs : list event) :
  glob host (getWorkingDirectory host (workingDirectory config))
    (VALID_CONFIG_FILE_NAMES c) []
  = (Ok results, evs) ->
  1 < length results ->
  fst (parserFactory host config) <> Ok (Some c).
Proof.
  intros G Hlen F. apply parserFactory_selected in F.
  apply hasConfigFile_true_iff in F. destruct F as (file & evs' & G' & _).
  rewrite G in G'. inversion G'. subst results. simpl in Hlen. lia.
Qed.

Lemma ambiguous_config_not_selected_witness :
  fst (parserFactory Sample.ambiguous_host (Sample.config JS.NaN))
  <> Ok (Some Cypress9ConfigParser_).
Proof.
  apply (ambiguous_config_not_selected Sample.ambiguous_host
           (Sample.config JS.NaN) Cypress9ConfigParser_
           ["cypress.json"; "packages/cypress.json"] []).
  - reflexivity.
  - simpl. lia.
Defined.

(** Leaving [working-directory] blank is the same run as naming the
    process directory, provided [path.join] never returns the empty
    string (it returns "." instead). *)
Theorem parse_blank_working_directory (host : Host) (count : JS.number) :
  (forall a b, path_join host a b <> "") ->
  parse host {| workingDirectory := ""; countRunners := count |}
  = parse host {| workingDirectory := process_cwd host; countRunners := count |}.
Proof.
  intros Hjoin.
  assert (WD : getWorkingDirectory host (process_cwd host)
               = getWorkingDirectory host "").
  { change (getWorkingDirectory host "") with (process_cwd host).
    unfold getWorkingDirectory. destruct (process_cwd host =? "")%string; reflexivity. }
  assert (H : forall names,
            hasConfigFile host names (process_cwd host) = hasConfigFile host names "").
  { intros names. change (process_cwd host) with (getWorkingDirectory host "").
    apply hasConfigFile_resolved. exact Hjoin. }
  unfold parse, parse_body, parserFactory, parseTests.
  cbn [workingDirectory countRunners]. rewrite !H, WD. reflexivity.
Qed.

Lemma sample_join_nonempty (a b : string) : Sample.join a b <> "".
Proof.
  unfold Sample.join.
  destruct a as [| c a]; destruct b as [| d b]; simpl; discriminate.
Qed.

Lemma parse_blank_working_directory_witness :
  parse Sample.legacy_host {| workingDirectory := ""; countRunners := JS.of_nat 2 |}
  = parse Sample.legacy_host
      {| workingDirectory := "/repo"; countRunners := JS.of_nat 2 |}.
Proof.
  exact (parse_blank_working_directory Sample.legacy_host (JS.of_nat 2)
           sample_join_nonempty).
Defined.

Section Disjoint.
Variable host : Host.

Lemma parseTestOfType_files (workingDirectory testFolder : string)
    (specPattern : SpecPattern) (excludeSpecPattern : option SpecPattern)
    (tests : list string) (evs : list event) :
  parseTestOfType host workingDirectory testFolder specPattern excludeSpecPattern
  = (Ok tests, evs) ->
  exists files,
    tests = List.map (fun f => path_join host testFolder f) files
    /\ (forall f, In f files ->
          exists p, In p (filePatterns_of specPattern)
                    /\ minimatch host f p = true)
    /\ (forall f p, In f files ->
          In p (excludePatterns
                  (discoveryRule testFolder specPattern excludeSpecPattern)) ->
          minimatch host f ("!" ++ p) = true).
Proof.
  unfold parseTestOfType. intros P.
  apply bind_returns in P. destruct P as (files & e0 & e1 & G & R & _).
  inversion R. exists files. split; [reflexivity |]. split.
  - intros f Hf. apply (glob_includes host _ _ _ _ _ G f Hf).
  - intros f p Hf Hp. apply (glob_excludes host _ _ _ _ _ G f p Hf Hp).
Qed.

End Disjoint.

(** In the modern schema no file is returned in both categories: with a
    matcher whose negated pattern rejects what the pattern accepts, the
    files behind the integration tests each match an e2e include
    pattern and the files behind the component tests match none. *)
Theorem modern_categories_disjoint (host : Host) (c : ParserClass)
    (config : Config) (tests : TestFiles) (component : list string)
    (evs : list event) :
  c <> Cypress9ConfigParser_ ->
  (forall f pat, minimatch host f pat = true ->
                 minimatch host f ("!" ++ pat) = false) ->
  parseTests host c config = (Ok tests, evs) ->
  componentTests tests = Some component ->
  exists e2eFiles componentFiles,
    integrationTests tests = List.map (fun f => path_join host "" f) e2eFiles
    /\ component = List.map (fun f => path_join host "" f) componentFiles
    /\ forall f, In f e2eFiles -> ~ In f componentFiles.
Proof.
  intros Modern Hneg T CT.
  set (wd := getWorkingDirectory host (workingDirectory config)) in *.
  assert (Cases :
    tests = emptyTestFiles
    \/ exists cfg evs1 evs2,
         (exists p evs', CypressConfigParser.processConfig host p = (Ok cfg, evs'))
         /\ parseTestOfType host wd ""
              (Many (CypressConfigParser.specPattern (CypressConfigParser.e2e cfg)))
              (Some (Many (CypressConfigParser.excludeSpecPattern
                             (CypressConfigParser.e2e cfg))))
            = (Ok (integrationTests tests), evs1)
         /\ parseTestOfType host wd ""
              (Many (CypressConfigParser.specPattern
                       (CypressConfigParser.component cfg)))
              (Some (Many (CypressConfigParser.excludeSpecPattern
                             (CypressConfigParser.component cfg))))
            = (Ok component, evs2)).
  { destruct c; [| | contradiction Modern; reflexivity];
      cbn [parseTests] in T; apply modern_parseTests_cases in T;
      (destruct T as [E | (cfg & e0 & e1 & e2 & ct & L & I & C & CT')];
       [left; exact E |]);
      right; exists cfg, e1, e2;
      rewrite CT in CT'; inversion CT'; subst ct;
      (split; [| auto]).
    - apply (modern_loadConfig_processed host CypressTSConfigParser _ _ _ L).
    - apply (modern_loadConfig_processed host CypressJSConfigParser _ _ _ L). }
  destruct Cases as [E | (cfg & e1 & e2 & (p & e' & P) & I & C)].
  { subst tests. inversion CT. subst component.
    exists [], []. split; [reflexivity |]. split; [reflexivity |]. intros f []. }
  destruct (parseTestOfType_files host _ _ _ _ _ _ I) as (fi & Ei & Inc & _).
  destruct (parseTestOfType_files host _ _ _ _ _ _ C) as (fc & Ec & _ & Exc).
  exists fi, fc. split; [exact Ei |]. split; [exact Ec |].
  intros f Hfi Hfc.
  destruct (Inc f Hfi) as (pat & Hpat & Hm).
  cbn [filePatterns_of] in Hpat.
  assert (Hin : In pat (CypressConfigParser.excludeSpecPattern
                          (CypressConfigParser.component cfg))).
  { unfold CypressConfigParser.processConfig in P.
    destruct p as [p |]; [| discriminate].
    apply bind_returns in P. destruct P as (raw & a0 & a1 & _ & R & _).
    inversion R. subst cfg.
    cbn [CypressConfigParser.e2e CypressConfigParser.component
         CypressConfigParser.specPattern CypressConfigParser.excludeSpecPattern]
      in Hpat |- *.
    rewrite componentExclude_shape.
    apply in_or_app. right. apply in_or_app. left. exact Hpat. }
  specialize (Exc f pat Hfc).
  cbn [excludePatterns discoveryRule ignoreFilePatterns_of] in Exc.
  specialize (Exc Hin). apply Hneg in Hm. rewrite Exc in Hm. discriminate Hm.
Qed.

Lemma modern_categories_disjoint_witness :
  exists e2eFiles componentFiles,
    ["a.cy.ts"] = List.map (fun f => Sample.join "" f) e2eFiles
    /\ ["b.cy.ts"] = List.map (fun f => Sample.join "" f) componentFiles
    /\ forall f, In f e2eFiles -> ~ In f componentFiles.
Proof.
  apply (modern_categories_disjoint Sample.modern_host CypressJSConfigParser
           (Sample.config JS.NaN)
           {| integrationTests := ["a.cy.ts"]; componentTests := Some ["b.cy.ts"] |}
           ["b.cy.ts"] []).
  - discriminate.
  - exact matches_negated.
  - reflexivity.
  - reflexivity.
Defined.
